(** * excel-poc: fetch trending stocks and write them to a spreadsheet

    A shallow embedding of the two revisions of the program:
    - [src/main.go]          builds the sheet cell by cell ([SetCellValue]);
    - [src/unnamed/part_000] builds it row by row through a stream writer.

    The program's own functions ([FetchStockData], [GenerateExcelFile],
    [main], the constructors) are transcribed from the source.  What they
    call in [fmt], [path/filepath], [encoding/json], [net/http], [os] and
    [excelize] is modelled at the level of the documented contract of those
    packages; each such definition says so. *)

From Stdlib Require Import ZArith String Ascii List Lia Floats.
From Stdlib Require Import Decimal DecimalString DecimalZ DecimalPos.
From stdpp Require Import base gmap strings list.

Local Open Scope Z_scope.

(** ** Go values *)

(** A Go [error] is represented by the text its [Error()] method returns. *)
Definition error := string.

(** [fmt.Errorf(prefix + "%w", err)]: the message is the prefix followed by
    the wrapped error's message. *)
Definition Errorf_w (prefix : string) (err : error) : error := prefix +:+ err.

(** [fmt.Sprintf("%d", z)] for a Go [int]. *)
Definition Sprintf_d (z : Z) : string := NilZero.string_of_int (Z.to_int z).

(** [fmt.Sprintf("%c", r)]: the character with code point [r].  Only code
    points below 128 (one byte in UTF-8) occur in the program. *)
Definition Sprintf_c (r : Z) : string := String (ascii_of_N (Z.to_N r)) "".

(** Index of the last occurrence of [c] in [s], if any. *)
Fixpoint last_index (c : ascii) (s : string) : option nat :=
  match s with
  | EmptyString => None
  | String a s' =>
      match last_index c s' with
      | Some k => Some (S k)
      | None => if Ascii.eqb a c then Some 0%nat else None
      end
  end.

(** [filepath.Join(dir, file)] for two non-empty clean elements. *)
Definition filepath_Join (dir file : string) : string := dir +:+ "/" +:+ file.

(** [filepath.Dir(path)] for a clean slash-separated path: everything before
    the last separator, ["."] when there is none, ["/"] for a file in the
    root. *)
Definition filepath_Dir (path : string) : string :=
  match last_index "/"%char path with
  | None => "."
  | Some 0%nat => "/"
  | Some k => substring 0 k path
  end.

(** ** The excelize workbook, as far as the program uses it *)

Module Excelize.

(** The dynamic types the program passes as [interface{}]. *)
Inductive any : Type :=
| AnyString (s : string)
| AnyFloat64 (x : float).

(** What a cell holds: text or a number. *)
Inductive Cell : Type :=
| CellText (s : string)
| CellNumber (x : float).

(** The type switch of [SetCellValue] / [StreamWriter.SetRow]: a Go string
    is stored as text, a [float64] as a number. *)
Definition cell_of_any (v : any) : Cell :=
  match v with
  | AnyString s => CellText s
  | AnyFloat64 x => CellNumber x
  end.

(** Limits of the file format, exported by excelize under these names. *)
Definition TotalRows : Z := 1048576.
Definition MaxColumns : Z := 16384.

Definition ErrMaxRows : error := "row number exceeds maximum limit".
Definition ErrColumnNumber : error := "the column number must be greater than or equal to 1 and less than or equal to 16384".
Definition ErrSheetNotExist (name : string) : error := "sheet " +:+ name +:+ " does not exist".
Definition ErrInvalidCellName (cell : string) : error := "invalid cell name " +:+ cell.
Definition ErrInvalidColumnName (col : string) : error := "invalid column name " +:+ col.
Definition ErrSheetNameInvalid : error := "the sheet name is invalid".
Definition ErrStreamSetRow (row : Z) : error := "row " +:+ Sprintf_d row +:+ " has already been written".

(** A sheet maps (column, row), both counted from 1, to the cell there. *)
Abbreviation Sheet := (gmap (Z * Z) Cell).

(** A workbook: its sheets in workbook order. *)
Record File : Type := mkFile { Sheets : list (string * Sheet) }.

Definition is_upper (a : ascii) : bool :=
  let n := Z.of_N (N_of_ascii a) in (65 <=? n) && (n <=? 90).
Definition is_lower (a : ascii) : bool :=
  let n := Z.of_N (N_of_ascii a) in (97 <=? n) && (n <=? 122).
Definition is_letter (a : ascii) : bool := is_upper a || is_lower a.

(** Value of a letter as a base-26 digit, [A] and [a] being 1. *)
Definition letter_value (a : ascii) : Z :=
  let n := Z.of_N (N_of_ascii a) in if is_lower a then n - 96 else n - 64.

(** Splits the leading run of letters from the rest. *)
Fixpoint split_letters (s : string) : string * string :=
  match s with
  | EmptyString => (EmptyString, EmptyString)
  | String a s' =>
      if is_letter a
      then let '(l, r) := split_letters s' in (String a l, r)
      else (EmptyString, s)
  end.

Fixpoint column_acc (acc : Z) (s : string) : Z :=
  match s with
  | EmptyString => acc
  | String a s' => column_acc (acc * 26 + letter_value a) s'
  end.

(** [ColumnNameToNumber]: a non-empty run of letters read in base 26,
    at most [MaxColumns]. *)
Definition ColumnNameToNumber (name : string) : error + Z :=
  match name with
  | EmptyString => inl (ErrInvalidColumnName name)
  | _ =>
      let n := column_acc 0 name in
      if n <=? MaxColumns then inr n else inl ErrColumnNumber
  end.

(** [strconv.Atoi] on an unsigned or negative decimal numeral. *)
Definition Atoi (s : string) : option Z :=
  option_map Z.of_int (NilZero.int_of_string s).

(** [CellNameToCoordinates]: a cell reference is a column name followed by a
    decimal row number; the row must be positive and at most [TotalRows]. *)
Definition CellNameToCoordinates (cell : string) : error + (Z * Z) :=
  let '(colName, rowStr) := split_letters cell in
  match Atoi rowStr with
  | None => inl (ErrInvalidCellName cell)
  | Some row =>
      if row <=? 0 then inl (ErrInvalidCellName cell)
      else if TotalRows <? row then inl ErrMaxRows
      else match ColumnNameToNumber colName with
           | inl e => inl e
           | inr col => inr (col, row)
           end
  end.

(** [excelize.NewFile()]: one empty sheet called [Sheet1]. *)
Definition NewFile : File := mkFile [("Sheet1"%string, ∅)].

(** [f.GetSheetName(index)]: name of the sheet at a 0-based index, the empty
    string when there is none. *)
Definition GetSheetName (f : File) (index : Z) : string :=
  if index <? 0 then ""
  else match Sheets f !! Z.to_nat index with
       | Some (name, _) => name
       | None => ""
       end.

Definition forbidden_in_sheet_name (a : ascii) : bool :=
  existsb (Ascii.eqb a) [":"; "\"; "/"; "?"; "*"; "["; "]"]%char.

Fixpoint string_exists (p : ascii -> bool) (s : string) : bool :=
  match s with
  | EmptyString => false
  | String a s' => p a || string_exists p s'
  end.

(** [checkSheetName]: non-empty, at most 31 characters, none of [:\/?*[]]. *)
Definition checkSheetName (name : string) : bool :=
  negb (String.eqb name "")
  && (Z.of_nat (String.length name) <=? 31)
  && negb (string_exists forbidden_in_sheet_name name).

Definition getSheet (f : File) (name : string) : option Sheet :=
  snd <$> List.find (fun p => String.eqb (fst p) name) (Sheets f).

Definition putSheet (f : File) (name : string) (s : Sheet) : File :=
  mkFile (List.map (fun p => if String.eqb (fst p) name then (name, s) else p) (Sheets f)).

(** [f.SetSheetName(source, target)]: renames the sheet called [source];
    nothing happens when there is no such sheet, an invalid name is an
    error. *)
Definition SetSheetName (f : File) (source target : string) : File * option error :=
  if negb (checkSheetName source && checkSheetName target) then (f, Some ErrSheetNameInvalid)
  else if String.eqb source target then (f, None)
  else (mkFile (List.map (fun p => if String.eqb (fst p) source then (target, snd p) else p) (Sheets f)), None).

(** [f.SetCellValue(sheet, cell, value)]: stores the value in the cell, or
    leaves the workbook as it is and returns an error when the sheet does
    not exist or the reference is not a cell of the sheet. *)
Definition SetCellValue (f : File) (sheet cell : string) (value : any) : File * option error :=
  match getSheet f sheet with
  | None => (f, Some (ErrSheetNotExist sheet))
  | Some ws =>
      match CellNameToCoordinates cell with
      | inl e => (f, Some e)
      | inr xy => (putSheet f sheet (<[xy := cell_of_any value]> ws), None)
      end
  end.

(** The stream writer: the workbook it belongs to, its sheet, the number of
    the last row written and the rows written so far. *)
Record StreamWriter : Type := mkStreamWriter {
  sw_file : File;
  sw_sheet : string;
  sw_rows : Z;
  sw_data : Sheet
}.

(** [f.NewStreamWriter(sheet)]. *)
Definition NewStreamWriter (f : File) (sheet : string) : error + StreamWriter :=
  match getSheet f sheet with
  | None => inl (ErrSheetNotExist sheet)
  | Some _ => inr (mkStreamWriter f sheet 0 ∅)
  end.

(** The cells of one streamed row, from column [col] rightwards. *)
Fixpoint put_row (col row : Z) (values : list any) (ws : Sheet) : Sheet :=
  match values with
  | [] => ws
  | v :: values' => put_row (col + 1) row values' (<[(col, row) := cell_of_any v]> ws)
  end.

(** [sw.SetRow(cell, values)]: rows must be written in increasing order. *)
Definition SetRow (sw : StreamWriter) (cell : string) (values : list any) : StreamWriter * option error :=
  match CellNameToCoordinates cell with
  | inl e => (sw, Some e)
  | inr (col, row) =>
      if row <=? sw_rows sw then (sw, Some (ErrStreamSetRow row))
      else (mkStreamWriter (sw_file sw) (sw_sheet sw) row (put_row col row values (sw_data sw)), None)
  end.

(** [sw.Flush()], when its temporary storage works: the streamed rows become
    the content of the sheet. *)
Definition Flush (sw : StreamWriter) : File :=
  putSheet (sw_file sw) (sw_sheet sw) (sw_data sw).

End Excelize.

(** ** JSON values and the scalar rules of [encoding/json] *)

Module Json.

(** A syntactically valid JSON document.  Objects keep their members in
    document order, duplicates included; a number literal is represented by
    the [float64] it denotes (a literal outside the range of [float64] makes
    decoding fail and counts as an invalid body below). *)
#[warnings="-register-all"]
Inductive value : Type :=
| Null
| Bool (b : bool)
| Number (x : float)
| Str (s : string)
| Array (elems : list value)
| Object (members : list (string * value)).

Definition kind (v : value) : string :=
  match v with
  | Null => "null"
  | Bool _ => "bool"
  | Number _ => "number"
  | Str _ => "string"
  | Array _ => "array"
  | Object _ => "object"
  end.

(** The error for a JSON value that does not fit the Go type (the wording
    of the message varies between versions of Go; only its presence matters
    to the program). *)
Definition UnmarshalTypeError (v : value) (goType : string) : error :=
  "json: cannot unmarshal " +:+ kind v +:+ " into Go value of type " +:+ goType.

Definition to_upper (a : ascii) : ascii :=
  if Excelize.is_lower a then ascii_of_N (N_of_ascii a - 32) else a.

(** Case folding of a key, on its UTF-8 bytes.  Letters a-z fold to A-Z; of
    the characters outside ASCII only U+017F (bytes 197 191) and U+212A
    (bytes 226 132 170) fold to an ASCII letter, S and K.  Every other
    character folds outside ASCII and is left as it is here, which does not
    change whether a key matches one of the (ASCII) field names. *)
Fixpoint foldName (s : string) : string :=
  match s with
  | EmptyString => EmptyString
  | String a s' =>
      match N_of_ascii a, s' with
      | 197%N, String b r =>
          if (N_of_ascii b =? 191)%N then String "S" (foldName r)
          else String a (foldName s')
      | 226%N, String b (String c r) =>
          if ((N_of_ascii b =? 132) && (N_of_ascii c =? 170))%N then String "K" (foldName r)
          else String a (foldName s')
      | _, _ => String (to_upper a) (foldName s')
      end
  end.

(** A member's key selects a struct field when it equals the field's JSON
    name exactly or after case folding. *)
Definition key_matches (name key : string) : bool :=
  String.eqb key name || String.eqb (foldName key) (foldName name).

(** Decoding into a Go [string]: [null] leaves the variable as it is. *)
Definition into_string (cur : string) (v : value) : error + string :=
  match v with
  | Null => inr cur
  | Str s => inr s
  | _ => inl (UnmarshalTypeError v "string")
  end.

(** Decoding into a Go [float64]. *)
Definition into_float64 (cur : float) (v : value) : error + float :=
  match v with
  | Null => inr cur
  | Number x => inr x
  | _ => inl (UnmarshalTypeError v "float64")
  end.

(** The members of an object are handed to the struct one by one, in
    document order; the first error is the one reported. *)
Fixpoint into_struct {T : Type} (field : string -> value -> T -> error + T)
    (members : list (string * value)) (cur : T) : error + T :=
  match members with
  | [] => inr cur
  | (key, v) :: members' =>
      match field key v cur with
      | inl e => inl e
      | inr cur' => into_struct field members' cur'
      end
  end.

(** The elements of an array, each decoded into a fresh element. *)
Fixpoint into_elems {T : Type} (elem : value -> error + T) (elems : list value) : error + list T :=
  match elems with
  | [] => inr []
  | v :: elems' =>
      match elem v with
      | inl e => inl e
      | inr x =>
          match into_elems elem elems' with
          | inl e => inl e
          | inr xs => inr (x :: xs)
          end
      end
  end.

End Json.

(** ** The program's types and constants (both revisions) *)

Definition stockAPIURL : string := "https://www.onlinekhabar.com/smtm/home/trending".
Definition dataDir : string := "data".
Definition excelFile : string := "stock_data.xlsx".
Definition sheetName : string := "Stock Data".

Record StockData : Type := mkStockData {
  Ticker : string;
  TickerName : string;
  LatestPrice : string;
  PointsChange : float;
  PercentageChange : float;
  TradedOfMktCap : float
}.

Record StockAPIResponse : Type := mkStockAPIResponse {
  Response : list StockData
}.

Record StockService : Type := mkStockService { apiURL : string }.

Definition NewStockService (apiURL : string) : StockService := mkStockService apiURL.

Record ExcelGenerator : Type := mkExcelGenerator { filePath : string }.

Definition NewExcelGenerator (directory filename : string) : ExcelGenerator :=
  mkExcelGenerator (filepath_Join directory filename).

(** Zero values of the struct types. *)
Definition zeroStockData : StockData := mkStockData "" "" "" 0%float 0%float 0%float.
Definition zeroStockAPIResponse : StockAPIResponse := mkStockAPIResponse [].

(** *** What [json.Decoder.Decode] does for these struct types

    The [json] tags of [StockData] and [StockAPIResponse] give the field
    each key selects; keys that select no field are skipped. *)

Definition StockData_field (key : string) (v : Json.value) (s : StockData) : error + StockData :=
  if Json.key_matches "ticker" key then
    match Json.into_string (Ticker s) v with
    | inl e => inl e
    | inr x => inr (mkStockData x (TickerName s) (LatestPrice s) (PointsChange s) (PercentageChange s) (TradedOfMktCap s))
    end
  else if Json.key_matches "ticker_name" key then
    match Json.into_string (TickerName s) v with
    | inl e => inl e
    | inr x => inr (mkStockData (Ticker s) x (LatestPrice s) (PointsChange s) (PercentageChange s) (TradedOfMktCap s))
    end
  else if Json.key_matches "latest_price" key then
    match Json.into_string (LatestPrice s) v with
    | inl e => inl e
    | inr x => inr (mkStockData (Ticker s) (TickerName s) x (PointsChange s) (PercentageChange s) (TradedOfMktCap s))
    end
  else if Json.key_matches "points_change" key then
    match Json.into_float64 (PointsChange s) v with
    | inl e => inl e
    | inr x => inr (mkStockData (Ticker s) (TickerName s) (LatestPrice s) x (PercentageChange s) (TradedOfMktCap s))
    end
  else if Json.key_matches "percentage_change" key then
    match Json.into_float64 (PercentageChange s) v with
    | inl e => inl e
    | inr x => inr (mkStockData (Ticker s) (TickerName s) (LatestPrice s) (PointsChange s) x (TradedOfMktCap s))
    end
  else if Json.key_matches "traded_of_mkt_cap" key then
    match Json.into_float64 (TradedOfMktCap s) v with
    | inl e => inl e
    | inr x => inr (mkStockData (Ticker s) (TickerName s) (LatestPrice s) (PointsChange s) (PercentageChange s) x)
    end
  else inr s.

Definition into_StockData (cur : StockData) (v : Json.value) : error + StockData :=
  match v with
  | Json.Null => inr cur
  | Json.Object members => Json.into_struct StockData_field members cur
  | _ => inl (Json.UnmarshalTypeError v "main.StockData")
  end.

(** A slice: [null] makes it nil, an array replaces it by its elements. *)
Definition into_StockData_slice (v : Json.value) : error + list StockData :=
  match v with
  | Json.Null => inr []
  | Json.Array elems => Json.into_elems (into_StockData zeroStockData) elems
  | _ => inl (Json.UnmarshalTypeError v "[]main.StockData")
  end.

Definition StockAPIResponse_field (key : string) (v : Json.value) (r : StockAPIResponse) : error + StockAPIResponse :=
  if Json.key_matches "response" key then
    match into_StockData_slice v with
    | inl e => inl e
    | inr l => inr (mkStockAPIResponse l)
    end
  else inr r.

Definition into_StockAPIResponse (cur : StockAPIResponse) (v : Json.value) : error + StockAPIResponse :=
  match v with
  | Json.Null => inr cur
  | Json.Object members => Json.into_struct StockAPIResponse_field members cur
  | _ => inl (Json.UnmarshalTypeError v "main.StockAPIResponse")
  end.

(** ** The outside world *)

(** What reading the response body yields: a JSON document, or a failure to
    read one (a syntax error, a broken connection). *)
Inductive BodyStream : Type :=
| BodyJSON (v : Json.value)
| BodyInvalid (err : error).

Record HttpResponse : Type := mkHttpResponse {
  StatusCode : Z;
  Body : BodyStream
}.

Definition StatusOK : Z := 200.

(** [json.NewDecoder(body).Decode(&stockResponse)]. *)
Definition Decode (body : BodyStream) (cur : StockAPIResponse) : error + StockAPIResponse :=
  match body with
  | BodyInvalid err => inl err
  | BodyJSON v => into_StockAPIResponse cur v
  end.

(** The answers of the network and of the file system in one run. *)
Record Env : Type := mkEnv {
  net_Get : string -> error + HttpResponse;
  fs_MkdirAll : string -> option error;
  fs_SaveAs : string -> option error;
  tmp_Flush : option error
}.

(** What the program does to the outside world, in order. *)
Inductive Event : Type :=
| EvHttpGet (url : string)
| EvBodyClose
| EvMkdirAll (dir : string)
| EvSaveAs (path : string) (f : Excelize.File)
| EvPrintln (line : string)
| EvFatal (line : string).

(** A computation appends the events it causes to the log of the run. *)
Definition IO (A : Type) : Type := list Event -> A * list Event.

Definition ret {A : Type} (a : A) : IO A := fun log => (a, log).

Definition bind {A B : Type} (m : IO A) (k : A -> IO B) : IO B :=
  fun log => let '(a, log') := m log in k a log'.

Definition emit (e : Event) : IO unit := fun log => (tt, log ++ [e]).

Declare Scope io_scope.
Delimit Scope io_scope with io.
Notation "'let*' x ':=' m 'in' k" := (bind m (fun x => k))
  (at level 10, x pattern, m at level 100, k at level 200) : io_scope.
Local Open Scope io_scope.

(** [defer cleanup; body]: the cleanup runs when the function returns,
    whatever it returns. *)
Definition defer {A : Type} (cleanup : IO unit) (body : IO A) : IO A :=
  let* a := body in
  let* _ := cleanup in
  ret a.

(** Runs a computation from an empty log. *)
Definition run {A : Type} (m : IO A) : A * list Event := m [].

Definition Body_Close : IO unit := emit EvBodyClose.

Definition fmt_Println (line : string) : IO unit := emit (EvPrintln line).

(** [log.Fatalf]: the line is logged and the process exits with status 1;
    nothing of the caller runs afterwards. *)
Definition log_Fatalf (line : string) : IO Z :=
  let* _ := emit (EvFatal line) in
  ret 1.

(** ** Calls into the outside world, and the fetcher (identical in both
    revisions) *)

Section Fetcher.

Variable env : Env.

Definition http_Get (url : string) : IO (error + HttpResponse) :=
  let* _ := emit (EvHttpGet url) in
  ret (net_Get env url).

Definition FetchStockData (s : StockService) : IO (list StockData * option error) :=
  let* r := http_Get (apiURL s) in
  match r with
  | inl err => ret ([], Some (Errorf_w "failed to fetch stock data: " err))
  | inr resp =>
      defer Body_Close
        (if negb (StatusCode resp =? StatusOK)
         then ret ([], Some ("API request failed with status code: " +:+ Sprintf_d (StatusCode resp)))
         else
           let stockResponse := zeroStockAPIResponse in
           match Decode (Body resp) stockResponse with
           | inl err => ret ([], Some (Errorf_w "failed to decode JSON response: " err))
           | inr stockResponse => ret (Response stockResponse, None)
           end)
  end.

Definition os_MkdirAll (dir : string) : IO (option error) :=
  let* _ := emit (EvMkdirAll dir) in
  ret (fs_MkdirAll env dir).

Definition SaveAs (f : Excelize.File) (path : string) : IO (option error) :=
  let* _ := emit (EvSaveAs path f) in
  ret (fs_SaveAs env path).

End Fetcher.

(** [for i, x := range l] over a state that every iteration updates. *)
Fixpoint range {A S : Type} (body : Z -> A -> S -> S) (i : Z) (l : list A) (s : S) : S :=
  match l with
  | [] => s
  | x :: l' => range body (i + 1) l' (body i x s)
  end.

(** The same loop when an iteration can return an error from the function. *)
Fixpoint range_err {A S : Type} (body : Z -> A -> S -> error + S) (i : Z) (l : list A) (s : S) : error + S :=
  match l with
  | [] => inr s
  | x :: l' =>
      match body i x s with
      | inl e => inl e
      | inr s' => range_err body (i + 1) l' s'
      end
  end.

(** ** Revision [src/main.go]: the sheet is built in memory *)

Module InMemory.

Import Excelize.

Definition headers : list string :=
  ["Ticker"; "Ticker Name"; "Latest Price"; "Points Change"; "Percentage Change"; "Traded Of Mkt Cap"]%string.

(** Body of the header loop; the error of [SetCellValue] is dropped. *)
Definition write_header (col : Z) (header : string) (f : File) : File :=
  let cell := Sprintf_c (65 + col) +:+ "1" in
  fst (SetCellValue f sheetName cell (AnyString header)).

(** Body of the data loop; the errors of [SetCellValue] are dropped. *)
Definition write_stock (i : Z) (stock : StockData) (f : File) : File :=
  let f := fst (SetCellValue f sheetName ("A" +:+ Sprintf_d (i + 2)) (AnyString (Ticker stock))) in
  let f := fst (SetCellValue f sheetName ("B" +:+ Sprintf_d (i + 2)) (AnyString (TickerName stock))) in
  let f := fst (SetCellValue f sheetName ("C" +:+ Sprintf_d (i + 2)) (AnyString (LatestPrice stock))) in
  let f := fst (SetCellValue f sheetName ("D" +:+ Sprintf_d (i + 2)) (AnyFloat64 (PointsChange stock))) in
  let f := fst (SetCellValue f sheetName ("E" +:+ Sprintf_d (i + 2)) (AnyFloat64 (PercentageChange stock))) in
  fst (SetCellValue f sheetName ("F" +:+ Sprintf_d (i + 2)) (AnyFloat64 (TradedOfMktCap stock))).

(** Lines 72-88 of [GenerateExcelFile]: the workbook handed to [SaveAs]. *)
Definition workbook (stocks : list StockData) : File :=
  let f := NewFile in
  let f := fst (SetSheetName f "Sheet1" sheetName) in
  let f := range write_header 0 headers f in
  range write_stock 0 stocks f.

Section Run.

Variable env : Env.

Definition GenerateExcelFile (e : ExcelGenerator) (stocks : list StockData) : IO (option error) :=
  let f := workbook stocks in
  let* err := os_MkdirAll env (filepath_Dir (filePath e)) in
  match err with
  | Some err => ret (Some (Errorf_w "failed to create directory: " err))
  | None =>
      let* err := SaveAs env f (filePath e) in
      match err with
      | Some err => ret (Some (Errorf_w "failed to save Excel file: " err))
      | None =>
          let* _ := fmt_Println ("Excel file saved at: " +:+ filePath e) in
          ret None
      end
  end.

(** The process: its exit status. *)
Definition main : IO Z :=
  let stockService := NewStockService stockAPIURL in
  let excelGenerator := NewExcelGenerator dataDir excelFile in
  let* (stocks, err) := FetchStockData env stockService in
  match err with
  | Some err => log_Fatalf ("Error fetching stock data: " +:+ err)
  | None =>
      let* err := GenerateExcelFile excelGenerator stocks in
      match err with
      | Some err => log_Fatalf ("Error generating Excel file: " +:+ err)
      | None => ret 0
      end
  end.

End Run.

End InMemory.

(** ** Revision [src/unnamed/part_000]: the sheet is streamed row by row *)

Module Streaming.

Import Excelize.

Definition headers : list any :=
  [AnyString "Ticker"; AnyString "Ticker Name"; AnyString "Latest Price";
   AnyString "Points Change"; AnyString "Percentage Change"; AnyString "Traded Of Mkt Cap"].

(** Body of the data loop: an error of [SetRow] ends the function. *)
Definition write_stock (i : Z) (stock : StockData) (streamWriter : StreamWriter) : error + StreamWriter :=
  let row := i + 2 in
  let cell := "A" +:+ Sprintf_d row in
  let rowData :=
    [AnyString (Ticker stock); AnyString (TickerName stock); AnyString (LatestPrice stock);
     AnyFloat64 (PointsChange stock); AnyFloat64 (PercentageChange stock);
     AnyFloat64 (TradedOfMktCap stock)] in
  match SetRow streamWriter cell rowData with
  | (_, Some err) => inl ("failed to write row " +:+ Sprintf_d row +:+ ": " +:+ err)
  | (streamWriter', None) => inr streamWriter'
  end.

(** Lines 72-105 of [GenerateExcelFile]: the stream writer after the last
    row, or the error the function returns before reaching [Flush]. *)
Definition stream (stocks : list StockData) : error + StreamWriter :=
  let f := NewFile in
  let defaultSheetName := GetSheetName f 0 in
  let f :=
    if negb (String.eqb defaultSheetName sheetName)
    then fst (SetSheetName f defaultSheetName sheetName)
    else f in
  match NewStreamWriter f sheetName with
  | inl err => inl (Errorf_w "failed to create stream writer: " err)
  | inr streamWriter =>
      match SetRow streamWriter "A1" headers with
      | (_, Some err) => inl (Errorf_w "failed to write headers: " err)
      | (streamWriter, None) => range_err write_stock 0 stocks streamWriter
      end
  end.

(** The workbook handed to [SaveAs] when the rows were streamed and
    flushed. *)
Definition workbook (stocks : list StockData) : error + File :=
  match stream stocks with
  | inl err => inl err
  | inr streamWriter => inr (Flush streamWriter)
  end.

Section Run.

Variable env : Env.

(** [streamWriter.Flush()]: fails when its temporary storage does. *)
Definition StreamWriter_Flush (sw : StreamWriter) : IO (File * option error) :=
  match tmp_Flush env with
  | Some err => ret (sw_file sw, Some err)
  | None => ret (Flush sw, None)
  end.

Definition GenerateExcelFile (e : ExcelGenerator) (stocks : list StockData) : IO (option error) :=
  match stream stocks with
  | inl err => ret (Some err)
  | inr streamWriter =>
      let* (f, err) := StreamWriter_Flush streamWriter in
      match err with
      | Some err => ret (Some (Errorf_w "failed to flush stream writer: " err))
      | None =>
          let* err := os_MkdirAll env (filepath_Dir (filePath e)) in
          match err with
          | Some err => ret (Some (Errorf_w "failed to create directory: " err))
          | None =>
              let* err := SaveAs env f (filePath e) in
              match err with
              | Some err => ret (Some (Errorf_w "failed to save Excel file: " err))
              | None =>
                  let* _ := fmt_Println ("Excel file saved at: " +:+ filePath e) in
                  ret None
              end
          end
      end
  end.

Definition main : IO Z :=
  let stockService := NewStockService stockAPIURL in
  let excelGenerator := NewExcelGenerator dataDir excelFile in
  let* (stocks, err) := FetchStockData env stockService in
  match err with
  | Some err => log_Fatalf ("Error fetching stock data: " +:+ err)
  | None =>
      let* err := GenerateExcelFile excelGenerator stocks in
      match err with
      | Some err => log_Fatalf ("Error generating Excel file: " +:+ err)
      | None => ret 0
      end
  end.

End Run.

End Streaming.

(** ** Sample data *)

#[warnings="-inexact-float"]
Definition sampleStock : StockData :=
  mkStockData "ABC" "Alpha" "120.5" 1.2%float 0.5%float 3.1%float.

#[warnings="-inexact-float"]
Definition sampleBody : Json.value :=
  Json.Object [("response"%string, Json.Array [Json.Object
    [("ticker"%string, Json.Str "ABC"); ("ticker_name"%string, Json.Str "Alpha");
     ("latest_price"%string, Json.Str "120.5"); ("points_change"%string, Json.Number 1.2%float);
     ("percentage_change"%string, Json.Number 0.5%float);
     ("traded_of_mkt_cap"%string, Json.Number 3.1%float)]])].

(** A run in which the server answers 200 with [body] and the disk works. *)
Definition okEnv (body : Json.value) : Env :=
  mkEnv (fun _ => inr (mkHttpResponse 200 (BodyJSON body))) (fun _ => None) (fun _ => None) None.

(** A body that carries no entries. *)
Definition nullBody : list (string * Json.value) :=
  [("status"%string, Json.Str "ok"); ("response"%string, Json.Null)].

(** A run in which the server answers 503. *)
Definition unavailableEnv : Env :=
  mkEnv (fun _ => inr (mkHttpResponse 503 (BodyInvalid "EOF"))) (fun _ => None) (fun _ => None) None.

(** A run in which the directory cannot be created. *)
Definition readOnlyEnv : Env :=
  mkEnv (fun _ => inr (mkHttpResponse 200 (BodyJSON sampleBody)))
    (fun _ => Some "mkdir data: read-only file system"%string) (fun _ => None) None.

(** A run in which the disk is full when the file is written. *)
Definition diskFullEnv : Env :=
  mkEnv (fun _ => inr (mkHttpResponse 200 (BodyJSON sampleBody)))
    (fun _ => None) (fun _ => Some "write data/stock_data.xlsx: no space left on device"%string) None.

(** ** Reading a workbook *)

(** The cell of a sheet of the workbook at a column and a row. *)
Definition cellAt (f : Excelize.File) (sheet : string) (col row : Z) : option Excelize.Cell :=
  match Excelize.getSheet f sheet with
  | Some ws => ws !! (col, row)
  | None => None
  end.

(** The rows of a sheet that hold at least one cell. *)
Definition rows (ws : Excelize.Sheet) : gset Z := set_map snd (dom ws).

Definition sheetRows (f : Excelize.File) (sheet : string) : gset Z :=
  match Excelize.getSheet f sheet with
  | Some ws => rows ws
  | None => ∅
  end.

(** The workbook with one sheet, called [sheetName]. *)
Definition oneSheet (ws : Excelize.Sheet) : Excelize.File := Excelize.mkFile [(sheetName, ws)].

(** *** What the specification expects in the sheet

    Row 1: the six labels in columns A to F.  Row [i + 2]: the six fields of
    entry [i], the three strings as text and the three floats as numbers. *)

Definition header_cell (col : Z) : option Excelize.Cell :=
  match col with
  | 1 => Some (Excelize.CellText "Ticker")
  | 2 => Some (Excelize.CellText "Ticker Name")
  | 3 => Some (Excelize.CellText "Latest Price")
  | 4 => Some (Excelize.CellText "Points Change")
  | 5 => Some (Excelize.CellText "Percentage Change")
  | 6 => Some (Excelize.CellText "Traded Of Mkt Cap")
  | _ => None
  end.

Definition stock_cell (stock : StockData) (col : Z) : option Excelize.Cell :=
  match col with
  | 1 => Some (Excelize.CellText (Ticker stock))
  | 2 => Some (Excelize.CellText (TickerName stock))
  | 3 => Some (Excelize.CellText (LatestPrice stock))
  | 4 => Some (Excelize.CellNumber (PointsChange stock))
  | 5 => Some (Excelize.CellNumber (PercentageChange stock))
  | 6 => Some (Excelize.CellNumber (TradedOfMktCap stock))
  | _ => None
  end.

(** The values of one entry as the data loop passes them on. *)
Definition rowData (stock : StockData) : list Excelize.any :=
  [Excelize.AnyString (Ticker stock); Excelize.AnyString (TickerName stock);
   Excelize.AnyString (LatestPrice stock); Excelize.AnyFloat64 (PointsChange stock);
   Excelize.AnyFloat64 (PercentageChange stock); Excelize.AnyFloat64 (TradedOfMktCap stock)].

(** The cells one iteration of the data loop adds to the sheet: those of row
    [i + 2] when the sheet has such a row, none otherwise. *)
Definition stock_cells (i : Z) (stock : StockData) (ws : Excelize.Sheet) : Excelize.Sheet :=
  if i + 2 <=? Excelize.TotalRows then Excelize.put_row 1 (i + 2) (rowData stock) ws else ws.

(** The header row alone. *)
Definition header_cells : Excelize.Sheet := Excelize.put_row 1 1 Streaming.headers ∅.

(** A list longer than a sheet can hold: 1048576 entries. *)
Definition tooMany : list StockData := replicate (Z.to_nat Excelize.TotalRows) sampleStock.

(** *** Reading the log of a run *)

Definition isBodyClose (ev : Event) : bool :=
  match ev with
  | EvBodyClose => true
  | _ => false
  end.

(** The events only [GenerateExcelFile] causes. *)
Definition isWriterEvent (ev : Event) : bool :=
  match ev with
  | EvMkdirAll _ | EvSaveAs _ _ | EvPrintln _ => true
  | _ => false
  end.

(** A log in which every [SaveAs] comes right after a successful
    [MkdirAll] of the parent directory of the generator's path. *)
Definition saves_after_mkdir (env : Env) (e : ExcelGenerator) (log : list Event) : Prop :=
  ∀ (before after : list Event) (path : string) (f : Excelize.File),
    log = before ++ EvSaveAs path f :: after →
    path = filePath e ∧
    last before = Some (EvMkdirAll (filepath_Dir path)) ∧
    fs_MkdirAll env (filepath_Dir path) = None.

(** A log without any [SaveAs]. *)
Definition never_saves (log : list Event) : Prop :=
  ∀ (path : string) (f : Excelize.File), EvSaveAs path f ∉ log.

(** Whether an object has a member with exactly this key. *)
Definition has_key (name : string) (members : list (string * Json.value)) : bool :=
  existsb (fun kv => String.eqb (fst kv) name) members.

(** *** Further readings of a log, and bodies to decode *)

Definition isFatal (ev : Event) : bool :=
  match ev with
  | EvFatal _ => true
  | _ => false
  end.

Definition isHttpGet (ev : Event) : bool :=
  match ev with
  | EvHttpGet _ => true
  | _ => false
  end.

(** Whether an entry list leaves room for the header row in a sheet. *)
Definition fits (stocks : list StockData) : Prop :=
  Z.of_nat (length stocks) + 1 ≤ Excelize.TotalRows.

(** The JSON object that carries one entry under the keys of the [json]
    tags of [StockData], and the body that carries a list of entries under
    the key of the tag of [StockAPIResponse]. *)
Definition json_of_StockData (s : StockData) : Json.value :=
  Json.Object
    [("ticker"%string, Json.Str (Ticker s)); ("ticker_name"%string, Json.Str (TickerName s));
     ("latest_price"%string, Json.Str (LatestPrice s));
     ("points_change"%string, Json.Number (PointsChange s));
     ("percentage_change"%string, Json.Number (PercentageChange s));
     ("traded_of_mkt_cap"%string, Json.Number (TradedOfMktCap s))].

Definition body_of (stocks : list StockData) : Json.value :=
  Json.Object [("response"%string, Json.Array (List.map json_of_StockData stocks))].

(** Whether a key selects one of the six fields of [StockData]. *)
Definition selects_StockData_field (key : string) : bool :=
  Json.key_matches "ticker" key || Json.key_matches "ticker_name" key
  || Json.key_matches "latest_price" key || Json.key_matches "points_change" key
  || Json.key_matches "percentage_change" key || Json.key_matches "traded_of_mkt_cap" key.

(** Whether a member of an entry holds a value of a JSON type that its
    field cannot take: anything but a string or [null] for the three string
    fields, anything but a number or [null] for the three [float64] fields. *)
Definition is_string_or_null (v : Json.value) : bool :=
  match v with
  | Json.Str _ | Json.Null => true
  | _ => false
  end.

Definition is_number_or_null (v : Json.value) : bool :=
  match v with
  | Json.Number _ | Json.Null => true
  | _ => false
  end.

Definition wrongly_typed (key : string) (v : Json.value) : bool :=
  if Json.key_matches "ticker" key then negb (is_string_or_null v)
  else if Json.key_matches "ticker_name" key then negb (is_string_or_null v)
  else if Json.key_matches "latest_price" key then negb (is_string_or_null v)
  else if Json.key_matches "points_change" key then negb (is_number_or_null v)
  else if Json.key_matches "percentage_change" key then negb (is_number_or_null v)
  else if Json.key_matches "traded_of_mkt_cap" key then negb (is_number_or_null v)
  else false.

(** * Properties *)

(** ** Cell references *)

Lemma Atoi_Sprintf_d (z : Z) : Excelize.Atoi (Sprintf_d z) = Some z.
Proof.
  unfold Excelize.Atoi, Sprintf_d.
  rewrite NilZero.isi.
  - simpl. f_equal. apply DecimalZ.of_to.
  - destruct z; simpl; [discriminate | |discriminate].
    intros [= H]. by apply Unsigned.to_uint_nonnil in H.
  - destruct z; simpl; [discriminate |discriminate | ].
    intros [= H]. by apply Unsigned.to_uint_nonnil in H.
Qed.

Lemma split_letters_uint (d : Decimal.uint) :
  Excelize.split_letters (NilZero.string_of_uint d) = (EmptyString, NilZero.string_of_uint d).
Proof. by destruct d. Qed.

Lemma split_letters_Sprintf_d (z : Z) :
  Excelize.split_letters (Sprintf_d z) = (EmptyString, Sprintf_d z).
Proof.
  unfold Sprintf_d. destruct (Z.to_int z) as [d|d]; simpl.
  - apply split_letters_uint.
  - done.
Qed.

(** A capital letter followed by a decimal row number names the cell in that
    column and row, as long as the sheet has the row. *)
Lemma CellNameToCoordinates_letter_row (a : ascii) (row : Z) :
  Excelize.is_upper a = true → 0 < row →
  Excelize.CellNameToCoordinates (String a (Sprintf_d row)) =
    if Excelize.TotalRows <? row then inl Excelize.ErrMaxRows
    else inr (Excelize.letter_value a, row).
Proof.
  intros Ha Hrow. unfold Excelize.CellNameToCoordinates. simpl.
  unfold Excelize.is_letter. rewrite Ha. simpl.
  rewrite split_letters_Sprintf_d, Atoi_Sprintf_d.
  destruct (Z.leb_spec row 0) as [?|_]; [lia|].
  destruct (Excelize.TotalRows <? row); [done|].
  unfold Excelize.ColumnNameToNumber. simpl.
  assert (Excelize.letter_value a <= Excelize.MaxColumns) as Hle.
  { unfold Excelize.letter_value, Excelize.is_upper, Excelize.is_lower, Excelize.MaxColumns in *.
    set (n := Z.of_N (N_of_ascii a)) in *.
    apply andb_prop in Ha as [_ Ha%Z.leb_le].
    destruct (97 <=? n); destruct (n <=? 122); simpl; lia. }
  change (0 * 26 + Excelize.letter_value a) with (Excelize.letter_value a).
  destruct (Z.leb_spec (Excelize.letter_value a) Excelize.MaxColumns); [done|lia].
Qed.

(** ** One cell, one row *)

Lemma SetCellValue_oneSheet (a : ascii) (row : Z) (v : Excelize.any) (ws : Excelize.Sheet) :
  Excelize.is_upper a = true → 0 < row → row ≤ Excelize.TotalRows →
  Excelize.SetCellValue (oneSheet ws) sheetName (String a (Sprintf_d row)) v =
    (oneSheet (<[(Excelize.letter_value a, row) := Excelize.cell_of_any v]> ws), None).
Proof.
  intros Ha H0 Hmax. unfold Excelize.SetCellValue.
  change (Excelize.getSheet (oneSheet ws) sheetName) with (Some ws).
  rewrite CellNameToCoordinates_letter_row by done.
  destruct (Z.ltb_spec Excelize.TotalRows row); [lia|done].
Qed.

(** Past the last row of the sheet the call fails and changes nothing. *)
Lemma SetCellValue_past_last_row (a : ascii) (row : Z) (v : Excelize.any) (ws : Excelize.Sheet) :
  Excelize.is_upper a = true → Excelize.TotalRows < row →
  Excelize.SetCellValue (oneSheet ws) sheetName (String a (Sprintf_d row)) v =
    (oneSheet ws, Some Excelize.ErrMaxRows).
Proof.
  intros Ha Hmax. unfold Excelize.SetCellValue.
  change (Excelize.getSheet (oneSheet ws) sheetName) with (Some ws).
  rewrite CellNameToCoordinates_letter_row by (done || (unfold Excelize.TotalRows in *; lia)).
  destruct (Z.ltb_spec Excelize.TotalRows row); [done|lia].
Qed.

Lemma SetRow_column_A (f : Excelize.File) (sheet : string) (k row : Z) (values : list Excelize.any) (ws : Excelize.Sheet) :
  k < row → row ≤ Excelize.TotalRows → 0 < row →
  Excelize.SetRow (Excelize.mkStreamWriter f sheet k ws) (String "A" (Sprintf_d row)) values =
    (Excelize.mkStreamWriter f sheet row (Excelize.put_row 1 row values ws), None).
Proof.
  intros Hk Hmax H0. unfold Excelize.SetRow.
  rewrite CellNameToCoordinates_letter_row by done.
  destruct (Z.ltb_spec Excelize.TotalRows row); [lia|].
  change (Excelize.letter_value "A") with 1. simpl.
  destruct (Z.leb_spec row k); [lia|done].
Qed.

Lemma SetRow_past_last_row (sw : Excelize.StreamWriter) (row : Z) (values : list Excelize.any) :
  Excelize.TotalRows < row →
  Excelize.SetRow sw (String "A" (Sprintf_d row)) values = (sw, Some Excelize.ErrMaxRows).
Proof.
  intros Hmax. unfold Excelize.SetRow.
  rewrite CellNameToCoordinates_letter_row by (done || (unfold Excelize.TotalRows in *; lia)).
  destruct (Z.ltb_spec Excelize.TotalRows row); [done|lia].
Qed.

(** What a streamed row leaves in the sheet. *)
Lemma lookup_put_row (col row : Z) (values : list Excelize.any) (ws : Excelize.Sheet) (c r : Z) :
  Excelize.put_row col row values ws !! (c, r) =
    if decide (r = row ∧ col ≤ c < col + Z.of_nat (length values))
    then Excelize.cell_of_any <$> values !! Z.to_nat (c - col)
    else ws !! (c, r).
Proof.
  revert col ws. induction values as [|v values IH]; intros col ws; simpl.
  - case_decide; [lia|done].
  - rewrite IH. repeat case_decide; destruct_and?; try lia.
    + replace (Z.to_nat (c - col)) with (S (Z.to_nat (c - (col + 1)))) by lia. done.
    + assert (c = col) as -> by lia. subst.
      rewrite lookup_insert_eq. by replace (Z.to_nat (col - col)) with 0%nat by lia.
    + rewrite lookup_insert_ne; [done|]. intros [= -> ->]. lia.
    + rewrite lookup_insert_ne; [done|]. intros [= -> ->]. lia.
Qed.

Lemma rowData_cells (stock : StockData) (c : Z) :
  1 ≤ c ≤ 6 →
  Excelize.cell_of_any <$> rowData stock !! Z.to_nat (c - 1) = stock_cell stock c.
Proof.
  intros Hc.
  assert (c = 1 ∨ c = 2 ∨ c = 3 ∨ c = 4 ∨ c = 5 ∨ c = 6) as Hcases by lia.
  destruct_or!; subst c; reflexivity.
Qed.


Lemma header_cell_outside (c : Z) : ¬ (1 ≤ c ≤ 6) → header_cell c = None.
Proof.
  intros Hc. destruct c as [|p|p]; try done.
  do 3 (try (destruct p as [p|p|]; try done; try lia)).
Qed.

Lemma lookup_header_cells (c r : Z) :
  header_cells !! (c, r) = if decide (r = 1) then header_cell c else None.
Proof.
  unfold header_cells. rewrite lookup_put_row, lookup_empty.
  change (Z.of_nat (length Streaming.headers)) with 6.
  destruct (decide (r = 1)) as [->|Hr].
  - destruct (decide (1 ≤ c ≤ 6)) as [Hc|Hc].
    + rewrite decide_True by lia.
      assert (c = 1 ∨ c = 2 ∨ c = 3 ∨ c = 4 ∨ c = 5 ∨ c = 6) as Hcases by lia.
      destruct_or!; subst c; reflexivity.
    + rewrite decide_False by lia. symmetry. by apply header_cell_outside.
  - case_decide; [lia|done].
Qed.

(** ** The loops of the two writers *)

Lemma append_letter (a : ascii) (s : string) : String a "" +:+ s = String a s.
Proof. reflexivity. Qed.

(** One iteration of the in-memory data loop: six cells of row [i + 2], or
    six dropped errors. *)
Lemma write_stock_oneSheet (i : Z) (stock : StockData) (ws : Excelize.Sheet) :
  0 ≤ i → InMemory.write_stock i stock (oneSheet ws) = oneSheet (stock_cells i stock ws).
Proof.
  intros Hi. unfold InMemory.write_stock, stock_cells. rewrite ?append_letter.
  destruct (Z.leb_spec (i + 2) Excelize.TotalRows) as [Hle|Hgt].
  - repeat (rewrite SetCellValue_oneSheet by (done || lia); simpl fst).
    reflexivity.
  - repeat (rewrite SetCellValue_past_last_row by done; simpl fst).
    reflexivity.
Qed.

Lemma range_write_stock (stocks : list StockData) (i : Z) (ws : Excelize.Sheet) :
  0 ≤ i →
  range InMemory.write_stock i stocks (oneSheet ws) = oneSheet (range stock_cells i stocks ws).
Proof.
  revert i ws. induction stocks as [|stock stocks IH]; intros i ws Hi; simpl.
  - done.
  - rewrite write_stock_oneSheet by done. apply IH. lia.
Qed.

(** The in-memory writer never fails before saving: what it saves is the
    header row and the data rows that fit the sheet. *)
Lemma InMemory_workbook_cells (stocks : list StockData) :
  InMemory.workbook stocks = oneSheet (range stock_cells 0 stocks header_cells).
Proof.
  unfold InMemory.workbook.
  replace (range InMemory.write_header 0 InMemory.headers
             (Excelize.SetSheetName Excelize.NewFile "Sheet1" sheetName).1)
    with (oneSheet header_cells) by (vm_compute; reflexivity).
  by apply range_write_stock.
Qed.

(** The streamed data loop as long as every row fits the sheet. *)
Lemma range_err_write_stock (stocks : list StockData) (i k : Z) (f : Excelize.File) (ws : Excelize.Sheet) :
  0 ≤ i → k < i + 2 →
  i + Z.of_nat (length stocks) + 1 ≤ Excelize.TotalRows →
  ∃ k', range_err Streaming.write_stock i stocks (Excelize.mkStreamWriter f sheetName k ws) =
          inr (Excelize.mkStreamWriter f sheetName k' (range stock_cells i stocks ws)).
Proof.
  revert i k ws. induction stocks as [|stock stocks IH]; intros i k ws Hi Hk Hmax; simpl.
  - by exists k.
  - unfold Streaming.write_stock. rewrite ?append_letter. simpl length in Hmax.
    rewrite SetRow_column_A by lia.
    unfold stock_cells at 2. destruct (Z.leb_spec (i + 2) Excelize.TotalRows); [|lia].
    apply IH; lia.
Qed.

(** ... and when the list is too long for the sheet: the loop stops at the
    first row past the end. *)
Lemma range_err_write_stock_past_last_row (stocks : list StockData) (i k : Z) (f : Excelize.File) (ws : Excelize.Sheet) :
  0 ≤ i → k < i + 2 → i + 1 ≤ Excelize.TotalRows →
  Excelize.TotalRows < i + Z.of_nat (length stocks) + 1 →
  range_err Streaming.write_stock i stocks (Excelize.mkStreamWriter f sheetName k ws) =
    inl ("failed to write row " +:+ Sprintf_d (Excelize.TotalRows + 1) +:+ ": " +:+ Excelize.ErrMaxRows).
Proof.
  revert i k ws. induction stocks as [|stock stocks IH]; intros i k ws Hi Hk Hlo Hmax;
    simpl length in Hmax; [lia|]. simpl range_err.
  unfold Streaming.write_stock. rewrite ?append_letter.
  destruct (decide (i + 2 ≤ Excelize.TotalRows)) as [Hle|Hgt].
  - rewrite SetRow_column_A by lia. apply IH; lia.
  - rewrite SetRow_past_last_row by lia.
    by replace (i + 2) with (Excelize.TotalRows + 1) by lia.
Qed.

Lemma Streaming_stream_start (stocks : list StockData) :
  Streaming.stream stocks =
    range_err Streaming.write_stock 0 stocks
      (Excelize.mkStreamWriter (oneSheet ∅) sheetName 1 header_cells).
Proof. reflexivity. Qed.

(** The streaming writer reaches [Flush] exactly when the list fits the
    sheet, and then hands over the same cells as the in-memory writer. *)
Lemma Streaming_workbook_cells (stocks : list StockData) :
  Z.of_nat (length stocks) + 1 ≤ Excelize.TotalRows →
  Streaming.workbook stocks = inr (oneSheet (range stock_cells 0 stocks header_cells)).
Proof.
  intros Hmax. unfold Streaming.workbook. rewrite Streaming_stream_start.
  destruct (range_err_write_stock stocks 0 1 (oneSheet ∅) header_cells) as [k' ->]; [lia..|done].
Qed.

Lemma Streaming_stream_too_long (stocks : list StockData) :
  Excelize.TotalRows < Z.of_nat (length stocks) + 1 →
  Streaming.stream stocks =
    inl (("failed to write row 1048577: " +:+ Excelize.ErrMaxRows)).
Proof.
  intros Hmax. rewrite Streaming_stream_start.
  rewrite range_err_write_stock_past_last_row by (unfold Excelize.TotalRows in *; lia).
  reflexivity.
Qed.

(** ** The cells of the sheet *)

Lemma lookup_stock_cells (i : Z) (stock : StockData) (ws : Excelize.Sheet) (c r : Z) :
  stock_cells i stock ws !! (c, r) =
    if decide (r = i + 2 ∧ r ≤ Excelize.TotalRows ∧ 1 ≤ c ≤ 6)
    then stock_cell stock c
    else ws !! (c, r).
Proof.
  unfold stock_cells. destruct (Z.leb_spec (i + 2) Excelize.TotalRows).
  - rewrite lookup_put_row. change (Z.of_nat (length (rowData stock))) with 6.
    repeat case_decide; destruct_and?; try lia; try done.
    by apply rowData_cells.
  - case_decide; [lia|done].
Qed.

(** Cells outside the rows of the loop are left alone. *)
Lemma lookup_range_stock_cells_other (stocks : list StockData) (i : Z) (ws : Excelize.Sheet) (c r : Z) :
  ¬ (i + 2 ≤ r < i + 2 + Z.of_nat (length stocks) ∧ r ≤ Excelize.TotalRows ∧ 1 ≤ c ≤ 6) →
  range stock_cells i stocks ws !! (c, r) = ws !! (c, r).
Proof.
  revert i ws. induction stocks as [|stock stocks IH]; intros i ws Hout; simpl; [done|].
  simpl length in Hout.
  rewrite IH by lia. rewrite lookup_stock_cells. case_decide; [lia|done].
Qed.

(** Entry [n] of the list ends up in row [i + n + 2], if the sheet has it. *)
Lemma lookup_range_stock_cells (stocks : list StockData) (i : Z) (ws : Excelize.Sheet) (n : nat) (stock : StockData) (c : Z) :
  stocks !! n = Some stock →
  i + Z.of_nat n + 2 ≤ Excelize.TotalRows → 1 ≤ c ≤ 6 →
  range stock_cells i stocks ws !! (c, i + Z.of_nat n + 2) = stock_cell stock c.
Proof.
  revert i ws n. induction stocks as [|s0 stocks IH]; intros i ws n Hn Hmax Hc; [done|].
  simpl. destruct n as [|n]; simpl in Hn.
  - injection Hn as ->.
    rewrite lookup_range_stock_cells_other by lia.
    rewrite lookup_stock_cells. case_decide; [done|lia].
  - replace (i + Z.of_nat (S n) + 2) with ((i + 1) + Z.of_nat n + 2) by lia.
    apply IH; [done|lia|done].
Qed.

(** Which rows hold a cell: the header row and one row per entry, up to the
    last row of the sheet. *)
Lemma elem_of_rows (ws : Excelize.Sheet) (r : Z) :
  r ∈ rows ws ↔ ∃ c, is_Some (ws !! (c, r)).
Proof.
  unfold rows. rewrite elem_of_map. split.
  - intros [[c r'] [-> Hin]]. exists c. by apply elem_of_dom.
  - intros [c Hc]. exists (c, r). split; [done|]. by apply elem_of_dom.
Qed.

Lemma stock_cell_column_A (stock : StockData) : is_Some (stock_cell stock 1).
Proof. by eexists. Qed.

Lemma rows_range_stock_cells (stocks : list StockData) (r : Z) :
  r ∈ rows (range stock_cells 0 stocks header_cells) ↔
  1 ≤ r ≤ Z.of_nat (length stocks) + 1 ∧ r ≤ Excelize.TotalRows.
Proof.
  rewrite elem_of_rows. split.
  - intros [c Hc].
    destruct (decide (2 ≤ r < 2 + Z.of_nat (length stocks) ∧ r ≤ Excelize.TotalRows ∧ 1 ≤ c ≤ 6))
      as [Hin|Hout]; [lia|].
    rewrite lookup_range_stock_cells_other in Hc by (simpl; lia).
    rewrite lookup_header_cells in Hc. case_decide; [|by destruct Hc].
    unfold Excelize.TotalRows. lia.
  - intros [Hr Hmax]. exists 1. destruct (decide (r = 1)) as [->|Hne].
    + rewrite lookup_range_stock_cells_other by lia. by rewrite lookup_header_cells.
    + destruct (lookup_lt_is_Some_2 stocks (Z.to_nat (r - 2))) as [stock Hstock]; [lia|].
      replace r with (0 + Z.of_nat (Z.to_nat (r - 2)) + 2) by lia.
      erewrite lookup_range_stock_cells; [apply stock_cell_column_A|done|lia|lia].
Qed.

Lemma rows_range_stock_cells_set (stocks : list StockData) :
  rows (range stock_cells 0 stocks header_cells) =
    list_to_set (seqZ 1 (Z.min (Z.of_nat (length stocks) + 1) Excelize.TotalRows)).
Proof.
  apply set_eq. intros r.
  rewrite rows_range_stock_cells, elem_of_list_to_set, elem_of_seqZ. lia.
Qed.

Lemma size_rows_range_stock_cells (stocks : list StockData) :
  Z.of_nat (size (rows (range stock_cells 0 stocks header_cells))) =
    Z.min (Z.of_nat (length stocks) + 1) Excelize.TotalRows.
Proof.
  rewrite rows_range_stock_cells_set.
  rewrite size_list_to_set by apply NoDup_seqZ.
  rewrite length_seqZ. unfold Excelize.TotalRows. lia.
Qed.

(** The oversized list. *)
Lemma length_tooMany : Z.of_nat (length tooMany) = Excelize.TotalRows.
Proof. unfold tooMany. rewrite length_replicate. unfold Excelize.TotalRows. lia. Qed.


Lemma cellAt_oneSheet (ws : Excelize.Sheet) (c r : Z) : cellAt (oneSheet ws) sheetName c r = ws !! (c, r).
Proof. reflexivity. Qed.

Lemma sheetRows_oneSheet (ws : Excelize.Sheet) : sheetRows (oneSheet ws) sheetName = rows ws.
Proof. reflexivity. Qed.


(** Row 1 of the sheet is the header row, whatever the entries are. *)
Lemma row_of_headers (stocks : list StockData) (c : Z) :
  range stock_cells 0 stocks header_cells !! (c, 1) = header_cell c.
Proof.
  rewrite lookup_range_stock_cells_other by lia.
  by rewrite lookup_header_cells, decide_True.
Qed.

Lemma Streaming_workbook_is_inr (stocks : list StockData) (f : Excelize.File) :
  Streaming.workbook stocks = inr f →
  Z.of_nat (length stocks) + 1 ≤ Excelize.TotalRows ∧
  f = oneSheet (range stock_cells 0 stocks header_cells).
Proof.
  intros Hf. destruct (decide (Z.of_nat (length stocks) + 1 ≤ Excelize.TotalRows)) as [Hle|Hgt].
  - rewrite Streaming_workbook_cells in Hf by done. by injection Hf as <-.
  - unfold Streaming.workbook in Hf. by rewrite Streaming_stream_too_long in Hf by lia.
Qed.

(** ** The sheet the writers produce (C1 - C4) *)

(** The example of the specification: one entry gives the header row and
    the row [ABC, Alpha, 120.5, 1.2, 0.5, 3.1]. *)
Example workbook_sampleStock :
  InMemory.workbook [sampleStock] =
    oneSheet (Excelize.put_row 1 2 (rowData sampleStock) header_cells) ∧
  Streaming.workbook [sampleStock] = inr (InMemory.workbook [sampleStock]) ∧
  cellAt (InMemory.workbook [sampleStock]) sheetName 1 2 = Some (Excelize.CellText "ABC") ∧
  cellAt (InMemory.workbook [sampleStock]) sheetName 3 2 = Some (Excelize.CellText "120.5") ∧
  cellAt (InMemory.workbook [sampleStock]) sheetName 5 2 = Some (Excelize.CellNumber 0.5%float) ∧
  cellAt (InMemory.workbook [sampleStock]) sheetName 7 2 = None.
Proof. split_and!; vm_compute; reflexivity. Qed.




(** C2, as amended.  For every list of [N] entries with [N + 1] at most
    1048576, the sheet of the workbook handed to [SaveAs] has exactly the
    rows 1 to [N + 1], so [N + 1] rows, in both revisions. *)
Theorem sheet_has_header_and_one_row_per_entry (stocks : list StockData) :
  Z.of_nat (length stocks) + 1 ≤ Excelize.TotalRows →
  sheetRows (InMemory.workbook stocks) sheetName = list_to_set (seqZ 1 (Z.of_nat (length stocks) + 1)) ∧
  size (sheetRows (InMemory.workbook stocks) sheetName) = S (length stocks) ∧
  Streaming.workbook stocks = inr (InMemory.workbook stocks).
Proof.
  intros Hfit. rewrite InMemory_workbook_cells, sheetRows_oneSheet. split_and!.
  - rewrite rows_range_stock_cells_set. f_equal. f_equal. lia.
  - pose proof (size_rows_range_stock_cells stocks). lia.
  - by apply Streaming_workbook_cells.
Qed.

Lemma sheet_has_header_and_one_row_per_entry_witness :
  sheetRows (InMemory.workbook [sampleStock]) sheetName = list_to_set (seqZ 1 (Z.of_nat (length [sampleStock]) + 1)) ∧
  size (sheetRows (InMemory.workbook [sampleStock]) sheetName) = S (length [sampleStock]) ∧
  Streaming.workbook [sampleStock] = inr (InMemory.workbook [sampleStock]).
Proof.
  apply (sheet_has_header_and_one_row_per_entry [sampleStock]).
  vm_compute. discriminate.
Defined.

(** C2 as stated fails for a list of 1048576 entries: the sheet the
    in-memory writer saves has 1048576 rows, not 1048577. *)
Lemma sheet_rows_capped_past_last_row :
  Z.of_nat (length tooMany) = 1048576 ∧
  Z.of_nat (size (sheetRows (InMemory.workbook tooMany) sheetName)) = 1048576.
Proof.
  split; [apply length_tooMany|].
  rewrite InMemory_workbook_cells, sheetRows_oneSheet, size_rows_range_stock_cells.
  rewrite length_tooMany. reflexivity.
Qed.

(** C3.  For every list of entries, the empty one included, row 1 of the
    workbook handed to [SaveAs] holds the six labels in A1 to F1 and no
    other cell.  The in-memory writer does so for every list; the streaming
    writer produces a workbook whenever the list fits the sheet, and every
    workbook it produces has the property. *)
Theorem header_row_is_fixed (stocks : list StockData) (c : Z) :
  cellAt (InMemory.workbook stocks) sheetName c 1 = header_cell c ∧
  (∀ f, Streaming.workbook stocks = inr f → cellAt f sheetName c 1 = header_cell c) ∧
  (Z.of_nat (length stocks) + 1 ≤ Excelize.TotalRows → ∃ f, Streaming.workbook stocks = inr f) ∧
  Streaming.workbook [] = inr (InMemory.workbook []).
Proof.
  split_and!.
  - rewrite InMemory_workbook_cells, cellAt_oneSheet. apply row_of_headers.
  - intros f [_ ->]%Streaming_workbook_is_inr. rewrite cellAt_oneSheet. apply row_of_headers.
  - intros Hfit. eexists. by apply Streaming_workbook_cells.
  - rewrite InMemory_workbook_cells. by apply Streaming_workbook_cells.
Qed.

(** ** Running the writers *)

(** The in-memory writer: directory, then file, then the notice. *)
Lemma InMemory_GenerateExcelFile_run (env : Env) (e : ExcelGenerator) (stocks : list StockData) :
  run (InMemory.GenerateExcelFile env e stocks) =
    match fs_MkdirAll env (filepath_Dir (filePath e)) with
    | Some err =>
        (Some (Errorf_w "failed to create directory: " err),
         [EvMkdirAll (filepath_Dir (filePath e))])
    | None =>
        match fs_SaveAs env (filePath e) with
        | Some err =>
            (Some (Errorf_w "failed to save Excel file: " err),
             [EvMkdirAll (filepath_Dir (filePath e)); EvSaveAs (filePath e) (InMemory.workbook stocks)])
        | None =>
            (None,
             [EvMkdirAll (filepath_Dir (filePath e)); EvSaveAs (filePath e) (InMemory.workbook stocks);
              EvPrintln ("Excel file saved at: " +:+ filePath e)])
        end
    end.
Proof.
  unfold run, InMemory.GenerateExcelFile, os_MkdirAll, SaveAs, fmt_Println, bind, emit, ret. simpl.
  destruct (fs_MkdirAll env _); [done|]. simpl.
  destruct (fs_SaveAs env _); done.
Qed.

(** The streaming writer once its rows are written: flush, directory, file,
    notice. *)
Lemma Streaming_GenerateExcelFile_run (env : Env) (e : ExcelGenerator) (stocks : list StockData) (sw : Excelize.StreamWriter) :
  Streaming.stream stocks = inr sw →
  run (Streaming.GenerateExcelFile env e stocks) =
    match tmp_Flush env with
    | Some err => (Some (Errorf_w "failed to flush stream writer: " err), [])
    | None =>
        match fs_MkdirAll env (filepath_Dir (filePath e)) with
        | Some err =>
            (Some (Errorf_w "failed to create directory: " err),
             [EvMkdirAll (filepath_Dir (filePath e))])
        | None =>
            match fs_SaveAs env (filePath e) with
            | Some err =>
                (Some (Errorf_w "failed to save Excel file: " err),
                 [EvMkdirAll (filepath_Dir (filePath e)); EvSaveAs (filePath e) (Excelize.Flush sw)])
            | None =>
                (None,
                 [EvMkdirAll (filepath_Dir (filePath e)); EvSaveAs (filePath e) (Excelize.Flush sw);
                  EvPrintln ("Excel file saved at: " +:+ filePath e)])
            end
        end
    end.
Proof.
  intros Hsw.
  unfold run, Streaming.GenerateExcelFile, Streaming.StreamWriter_Flush, os_MkdirAll, SaveAs,
    fmt_Println, bind, emit, ret.
  rewrite Hsw. destruct (tmp_Flush env); [done|]. simpl.
  destruct (fs_MkdirAll env _); [done|]. simpl.
  destruct (fs_SaveAs env _); done.
Qed.

(** ... and when a row could not be written: nothing reaches the disk. *)
Lemma Streaming_GenerateExcelFile_run_error (env : Env) (e : ExcelGenerator) (stocks : list StockData) (err : error) :
  Streaming.stream stocks = inl err →
  run (Streaming.GenerateExcelFile env e stocks) = (Some err, []).
Proof.
  intros Herr. unfold run, Streaming.GenerateExcelFile. by rewrite Herr.
Qed.

Lemma Streaming_stream_cases (stocks : list StockData) :
  (Z.of_nat (length stocks) + 1 ≤ Excelize.TotalRows ∧
   ∃ sw, Streaming.stream stocks = inr sw ∧ Excelize.Flush sw = InMemory.workbook stocks) ∨
  (Excelize.TotalRows < Z.of_nat (length stocks) + 1 ∧
   Streaming.stream stocks = inl ("failed to write row 1048577: " +:+ Excelize.ErrMaxRows)).
Proof.
  destruct (decide (Z.of_nat (length stocks) + 1 ≤ Excelize.TotalRows)) as [Hle|Hgt].
  - left. split; [done|].
    pose proof (Streaming_workbook_cells stocks Hle) as Hwb.
    unfold Streaming.workbook in Hwb. destruct (Streaming.stream stocks) as [|sw]; [done|].
    exists sw. split; [done|]. rewrite InMemory_workbook_cells. congruence.
  - right. split; [lia|]. apply Streaming_stream_too_long. lia.
Qed.




(** ** The fetcher (C5, C9) *)

Lemma run_bind {A B : Type} (m : IO A) (k : A → IO B) :
  run (bind m k) = k (run m).1 (run m).2.
Proof. unfold run, bind. by destruct (m []). Qed.

(** Every path through [FetchStockData]. *)
Lemma FetchStockData_run (env : Env) (s : StockService) :
  run (FetchStockData env s) =
    match net_Get env (apiURL s) with
    | inl err =>
        (([], Some (Errorf_w "failed to fetch stock data: " err)), [EvHttpGet (apiURL s)])
    | inr resp =>
        (if StatusCode resp =? 200
         then match Decode (Body resp) zeroStockAPIResponse with
              | inl err => ([], Some (Errorf_w "failed to decode JSON response: " err))
              | inr r => (Response r, None)
              end
         else ([], Some ("API request failed with status code: " +:+ Sprintf_d (StatusCode resp))),
         [EvHttpGet (apiURL s); EvBodyClose])
    end.
Proof.
  unfold run, FetchStockData, http_Get, defer, Body_Close, bind, emit, ret, StatusOK. simpl.
  destruct (net_Get env (apiURL s)) as [err|resp]; [done|].
  destruct (StatusCode resp =? 200); simpl; [|done].
  by destruct (Decode (Body resp) zeroStockAPIResponse).
Qed.

Lemma fetch_errors_distinct (e1 e3 : error) (code : Z) :
  Errorf_w "failed to fetch stock data: " e1 ≠ "API request failed with status code: " +:+ Sprintf_d code ∧
  Errorf_w "failed to fetch stock data: " e1 ≠ Errorf_w "failed to decode JSON response: " e3 ∧
  "API request failed with status code: " +:+ Sprintf_d code ≠ Errorf_w "failed to decode JSON response: " e3.
Proof. unfold Errorf_w. simpl. split_and!; discriminate. Qed.

(** The example of the specification decodes to one entry. *)
Example Decode_sampleBody :
  Decode (BodyJSON sampleBody) zeroStockAPIResponse = inr (mkStockAPIResponse [sampleStock]).
Proof. vm_compute. reflexivity. Qed.

(** C5.  [FetchStockData] returns the entries decoded from the body, and no
    error, exactly when the GET had no transport error, the status is 200
    and the body decodes.  A transport error, another status and a decoding
    failure each give their own error message and no entries. *)
Theorem FetchStockData_result (env : Env) (s : StockService) :
  (∀ resp r, net_Get env (apiURL s) = inr resp → StatusCode resp = 200 →
     Decode (Body resp) zeroStockAPIResponse = inr r →
     (run (FetchStockData env s)).1 = (Response r, None)) ∧
  ((run (FetchStockData env s)).1.2 = None ↔
     ∃ resp r, net_Get env (apiURL s) = inr resp ∧ StatusCode resp = 200 ∧
               Decode (Body resp) zeroStockAPIResponse = inr r) ∧
  (∀ err, net_Get env (apiURL s) = inl err →
     (run (FetchStockData env s)).1 = ([], Some (Errorf_w "failed to fetch stock data: " err))) ∧
  (∀ resp, net_Get env (apiURL s) = inr resp → StatusCode resp ≠ 200 →
     (run (FetchStockData env s)).1 =
       ([], Some ("API request failed with status code: " +:+ Sprintf_d (StatusCode resp)))) ∧
  (∀ resp err, net_Get env (apiURL s) = inr resp → StatusCode resp = 200 →
     Decode (Body resp) zeroStockAPIResponse = inl err →
     (run (FetchStockData env s)).1 = ([], Some (Errorf_w "failed to decode JSON response: " err))) ∧
  (∀ (e1 e3 : error) (code : Z),
     Errorf_w "failed to fetch stock data: " e1 ≠ "API request failed with status code: " +:+ Sprintf_d code ∧
     Errorf_w "failed to fetch stock data: " e1 ≠ Errorf_w "failed to decode JSON response: " e3 ∧
     "API request failed with status code: " +:+ Sprintf_d code ≠ Errorf_w "failed to decode JSON response: " e3).
Proof.
  rewrite FetchStockData_run. split_and!.
  - intros resp r -> Hcode ->. by rewrite Hcode.
  - split.
    + destruct (net_Get env (apiURL s)) as [err|resp]; [done|]. simpl.
      destruct (Z.eqb_spec (StatusCode resp) 200) as [Hcode|]; [|done].
      destruct (Decode (Body resp) zeroStockAPIResponse) as [err|r] eqn:Hr; [done|].
      intros _. by exists resp, r.
    + intros (resp & r & -> & Hcode & ->). by rewrite Hcode.
  - by intros err ->.
  - intros resp -> Hcode. by destruct (Z.eqb_spec (StatusCode resp) 200).
  - intros resp err -> Hcode ->. by rewrite Hcode.
  - apply fetch_errors_distinct.
Qed.

(** C9.  Whenever the GET succeeds, [FetchStockData] closes the body exactly
    once, as the last thing it does: whether the status check fails, the
    decoding fails or the entries are returned. *)
Theorem body_closed_exactly_once (env : Env) (s : StockService) (resp : HttpResponse) :
  net_Get env (apiURL s) = inr resp →
  (run (FetchStockData env s)).2 = [EvHttpGet (apiURL s); EvBodyClose] ∧
  length (List.filter isBodyClose (run (FetchStockData env s)).2) = 1%nat ∧
  last (run (FetchStockData env s)).2 = Some EvBodyClose.
Proof.
  intros Hget. rewrite FetchStockData_run, Hget. done.
Qed.

Lemma body_closed_exactly_once_witness :
  (run (FetchStockData (okEnv sampleBody) (NewStockService stockAPIURL))).2 =
    [EvHttpGet (apiURL (NewStockService stockAPIURL)); EvBodyClose] ∧
  length (List.filter isBodyClose (run (FetchStockData (okEnv sampleBody) (NewStockService stockAPIURL))).2) = 1%nat ∧
  last (run (FetchStockData (okEnv sampleBody) (NewStockService stockAPIURL))).2 = Some EvBodyClose.
Proof.
  apply (body_closed_exactly_once (okEnv sampleBody) (NewStockService stockAPIURL)
           (mkHttpResponse 200 (BodyJSON sampleBody))).
  reflexivity.
Defined.

(** ** The process (C6) *)

Lemma FetchStockData_events (env : Env) (s : StockService) :
  Forall (fun ev => isWriterEvent ev = false) (run (FetchStockData env s)).2.
Proof.
  rewrite FetchStockData_run.
  destruct (net_Get env (apiURL s)); simpl; repeat constructor.
Qed.

Lemma InMemory_main_run (env : Env) :
  run (InMemory.main env) =
    match (run (FetchStockData env (NewStockService stockAPIURL))).1 with
    | (_, Some err) =>
        log_Fatalf ("Error fetching stock data: " +:+ err)
          (run (FetchStockData env (NewStockService stockAPIURL))).2
    | (stocks, None) =>
        bind (InMemory.GenerateExcelFile env (NewExcelGenerator dataDir excelFile) stocks)
          (fun err => match err with
                      | Some err => log_Fatalf ("Error generating Excel file: " +:+ err)
                      | None => ret 0
                      end)
          (run (FetchStockData env (NewStockService stockAPIURL))).2
    end.
Proof.
  unfold InMemory.main. rewrite run_bind.
  by destruct (run (FetchStockData env (NewStockService stockAPIURL))).1 as [stocks [err|]].
Qed.

Lemma Streaming_main_run (env : Env) :
  run (Streaming.main env) =
    match (run (FetchStockData env (NewStockService stockAPIURL))).1 with
    | (_, Some err) =>
        log_Fatalf ("Error fetching stock data: " +:+ err)
          (run (FetchStockData env (NewStockService stockAPIURL))).2
    | (stocks, None) =>
        bind (Streaming.GenerateExcelFile env (NewExcelGenerator dataDir excelFile) stocks)
          (fun err => match err with
                      | Some err => log_Fatalf ("Error generating Excel file: " +:+ err)
                      | None => ret 0
                      end)
          (run (FetchStockData env (NewStockService stockAPIURL))).2
    end.
Proof.
  unfold Streaming.main. rewrite run_bind.
  by destruct (run (FetchStockData env (NewStockService stockAPIURL))).1 as [stocks [err|]].
Qed.

Lemma log_Fatalf_run (line : string) (log : list Event) :
  log_Fatalf line log = (1, log ++ [EvFatal line]).
Proof. reflexivity. Qed.

(** C6.  When [FetchStockData] returns an error, [main] logs it and exits
    with status 1: the run consists of the events of the fetch followed by
    the fatal log line, so the writer is never invoked and nothing touches
    the file system.  In particular for a status other than 200. *)
Theorem failed_fetch_never_writes (env : Env) (stocks : list StockData) (err : error) :
  (run (FetchStockData env (NewStockService stockAPIURL))).1 = (stocks, Some err) →
  run (InMemory.main env) =
    (1, (run (FetchStockData env (NewStockService stockAPIURL))).2
          ++ [EvFatal ("Error fetching stock data: " +:+ err)]) ∧
  run (Streaming.main env) = run (InMemory.main env) ∧
  Forall (fun ev => isWriterEvent ev = false) (run (InMemory.main env)).2 ∧
  (∀ resp, net_Get env stockAPIURL = inr resp → StatusCode resp ≠ 200 →
     run (InMemory.main env) =
       (1, [EvHttpGet stockAPIURL; EvBodyClose;
            EvFatal ("Error fetching stock data: API request failed with status code: "
                     +:+ Sprintf_d (StatusCode resp))])).
Proof.
  intros Hfetch.
  rewrite Streaming_main_run, InMemory_main_run, Hfetch, log_Fatalf_run. split_and!.
  - done.
  - done.
  - simpl. apply Forall_app. split; [apply FetchStockData_events|by repeat constructor].
  - intros resp Hget Hcode. revert Hfetch. rewrite FetchStockData_run.
    change (apiURL (NewStockService stockAPIURL)) with stockAPIURL. rewrite Hget.
    destruct (Z.eqb_spec (StatusCode resp) 200); [done|].
    simpl. by intros [= <- <-].
Qed.

Lemma failed_fetch_never_writes_witness :
  run (InMemory.main unavailableEnv) =
    (1, (run (FetchStockData unavailableEnv
                (NewStockService stockAPIURL))).2
          ++ [EvFatal ("Error fetching stock data: " +:+ "API request failed with status code: 503")]) ∧
  run (Streaming.main unavailableEnv) =
    run (InMemory.main unavailableEnv) ∧
  Forall (fun ev => isWriterEvent ev = false)
    (run (InMemory.main unavailableEnv)).2 ∧
  (∀ resp, net_Get unavailableEnv
             stockAPIURL = inr resp → StatusCode resp ≠ 200 →
     run (InMemory.main unavailableEnv) =
       (1, [EvHttpGet stockAPIURL; EvBodyClose;
            EvFatal ("Error fetching stock data: API request failed with status code: "
                     +:+ Sprintf_d (StatusCode resp))])).
Proof.
  apply (failed_fetch_never_writes unavailableEnv [] "API request failed with status code: 503").
  vm_compute. reflexivity.
Defined.

(** ** Directory, then file (C7, C8) *)

Lemma rows_header_cells : rows header_cells = {[1]}.
Proof.
  apply set_eq. intros r. rewrite elem_of_rows, elem_of_singleton. split.
  - intros [c Hc]. rewrite lookup_header_cells in Hc. case_decide; [done|by destruct Hc].
  - intros ->. exists 1. by rewrite lookup_header_cells.
Qed.

Lemma InMemory_workbook_nil : InMemory.workbook [] = oneSheet header_cells.
Proof. apply InMemory_workbook_cells. Qed.

Lemma Streaming_stream_nil :
  Streaming.stream [] = inr (Excelize.mkStreamWriter (oneSheet ∅) sheetName 1 header_cells).
Proof. reflexivity. Qed.

(** C7.  Given no entries, and a file system that works, the writer returns
    no error; the workbook it saves has the header row and no other row. *)
Theorem empty_list_gives_header_only (env : Env) (e : ExcelGenerator) :
  fs_MkdirAll env (filepath_Dir (filePath e)) = None →
  fs_SaveAs env (filePath e) = None →
  run (InMemory.GenerateExcelFile env e []) =
    (None,
     [EvMkdirAll (filepath_Dir (filePath e)); EvSaveAs (filePath e) (oneSheet header_cells);
      EvPrintln ("Excel file saved at: " +:+ filePath e)]) ∧
  (tmp_Flush env = None →
   run (Streaming.GenerateExcelFile env e []) = run (InMemory.GenerateExcelFile env e [])) ∧
  sheetRows (oneSheet header_cells) sheetName = {[1]} ∧
  (∀ c, cellAt (oneSheet header_cells) sheetName c 1 = header_cell c).
Proof.
  intros Hmkdir Hsave. split_and!.
  - by rewrite InMemory_GenerateExcelFile_run, Hmkdir, Hsave, InMemory_workbook_nil.
  - intros Hflush.
    rewrite (Streaming_GenerateExcelFile_run env e [] _ Streaming_stream_nil).
    by rewrite InMemory_GenerateExcelFile_run, Hflush, InMemory_workbook_nil.
  - rewrite sheetRows_oneSheet. apply rows_header_cells.
  - intros c. by rewrite cellAt_oneSheet, lookup_header_cells.
Qed.

Lemma empty_list_gives_header_only_witness :
  run (InMemory.GenerateExcelFile (okEnv sampleBody) (NewExcelGenerator dataDir excelFile) []) =
    (None,
     [EvMkdirAll (filepath_Dir (filePath (NewExcelGenerator dataDir excelFile)));
      EvSaveAs (filePath (NewExcelGenerator dataDir excelFile)) (oneSheet header_cells);
      EvPrintln ("Excel file saved at: " +:+ filePath (NewExcelGenerator dataDir excelFile))]) ∧
  (tmp_Flush (okEnv sampleBody) = None →
   run (Streaming.GenerateExcelFile (okEnv sampleBody) (NewExcelGenerator dataDir excelFile) []) =
   run (InMemory.GenerateExcelFile (okEnv sampleBody) (NewExcelGenerator dataDir excelFile) [])) ∧
  sheetRows (oneSheet header_cells) sheetName = {[1]} ∧
  (∀ c, cellAt (oneSheet header_cells) sheetName c 1 = header_cell c).
Proof.
  apply (empty_list_gives_header_only (okEnv sampleBody) (NewExcelGenerator dataDir excelFile)).
  - reflexivity.
  - reflexivity.
Defined.

Lemma saves_after_mkdir_short (env : Env) (e : ExcelGenerator) (f : Excelize.File) (rest : list Event) :
  fs_MkdirAll env (filepath_Dir (filePath e)) = None →
  Forall (fun ev => ∀ p g, ev ≠ EvSaveAs p g) rest →
  saves_after_mkdir env e (EvMkdirAll (filepath_Dir (filePath e)) :: EvSaveAs (filePath e) f :: rest).
Proof.
  intros Hmkdir Hrest before after path g Hlog.
  destruct before as [|ev1 [|ev2 before]]; simplify_eq/=.
  - done.
  - exfalso. rewrite Forall_app, Forall_cons in Hrest.
    destruct Hrest as [_ [Hne _]]. by eapply Hne.
Qed.

Lemma saves_after_mkdir_none (env : Env) (e : ExcelGenerator) (log : list Event) :
  never_saves log → saves_after_mkdir env e log.
Proof.
  intros Hnever before after path f ->. exfalso.
  apply (Hnever path f). apply elem_of_app. right. apply elem_of_cons. by left.
Qed.

Lemma never_saves_nil : never_saves [].
Proof. intros path f Hin. by apply elem_of_nil in Hin. Qed.

Lemma never_saves_mkdir (dir : string) : never_saves [EvMkdirAll dir].
Proof. intros path f Hin. apply list_elem_of_singleton in Hin. discriminate. Qed.

Lemma writer_errors_distinct (e1 e2 : error) :
  Errorf_w "failed to create directory: " e1 ≠ Errorf_w "failed to save Excel file: " e2 ∧
  Errorf_w "failed to create directory: " e1 ≠ Errorf_w "failed to flush stream writer: " e2 ∧
  Errorf_w "failed to create directory: " e1 ≠ Errorf_w "failed to write headers: " e2 ∧
  Errorf_w "failed to create directory: " e1 ≠ Errorf_w "failed to create stream writer: " e2 ∧
  (∀ row, Errorf_w "failed to create directory: " e1 ≠ "failed to write row " +:+ Sprintf_d row +:+ ": " +:+ e2).
Proof. unfold Errorf_w. simpl. split_and!; discriminate. Qed.

Lemma InMemory_saves_after_mkdir (env : Env) (e : ExcelGenerator) (stocks : list StockData) :
  saves_after_mkdir env e (run (InMemory.GenerateExcelFile env e stocks)).2.
Proof.
  rewrite InMemory_GenerateExcelFile_run.
  destruct (fs_MkdirAll env (filepath_Dir (filePath e))) as [err|] eqn:Hmkdir; simpl.
  - apply saves_after_mkdir_none, never_saves_mkdir.
  - destruct (fs_SaveAs env (filePath e)); simpl;
      apply saves_after_mkdir_short; try done; repeat constructor; discriminate.
Qed.

Lemma Streaming_saves_after_mkdir (env : Env) (e : ExcelGenerator) (stocks : list StockData) :
  saves_after_mkdir env e (run (Streaming.GenerateExcelFile env e stocks)).2.
Proof.
  destruct (Streaming.stream stocks) as [err|sw] eqn:Hstream.
  - rewrite (Streaming_GenerateExcelFile_run_error env e stocks err Hstream).
    apply saves_after_mkdir_none, never_saves_nil.
  - rewrite (Streaming_GenerateExcelFile_run env e stocks sw Hstream).
    destruct (tmp_Flush env); simpl; [apply saves_after_mkdir_none, never_saves_nil|].
    destruct (fs_MkdirAll env (filepath_Dir (filePath e))) as [err|] eqn:Hmkdir; simpl.
    + apply saves_after_mkdir_none, never_saves_mkdir.
    + destruct (fs_SaveAs env (filePath e)); simpl;
        apply saves_after_mkdir_short; try done; repeat constructor; discriminate.
Qed.

Lemma Streaming_never_saves_without_directory (env : Env) (e : ExcelGenerator) (stocks : list StockData) (err : error) :
  fs_MkdirAll env (filepath_Dir (filePath e)) = Some err →
  never_saves (run (Streaming.GenerateExcelFile env e stocks)).2.
Proof.
  intros Hmkdir. destruct (Streaming.stream stocks) as [err'|sw] eqn:Hstream.
  - rewrite (Streaming_GenerateExcelFile_run_error env e stocks err' Hstream). apply never_saves_nil.
  - rewrite (Streaming_GenerateExcelFile_run env e stocks sw Hstream), Hmkdir.
    destruct (tmp_Flush env); simpl; [apply never_saves_nil|apply never_saves_mkdir].
Qed.

(** C8.  In both revisions, whenever [GenerateExcelFile] saves the file it
    has, right before, created the parent directory of the target path with
    [MkdirAll], successfully.  When [MkdirAll] fails, the file is not saved
    and the function returns the error "failed to create directory: ...",
    which no other step of the writer produces. *)
Theorem directory_is_made_before_saving (env : Env) (e : ExcelGenerator) (stocks : list StockData) :
  saves_after_mkdir env e (run (InMemory.GenerateExcelFile env e stocks)).2 ∧
  saves_after_mkdir env e (run (Streaming.GenerateExcelFile env e stocks)).2 ∧
  head (run (InMemory.GenerateExcelFile env e stocks)).2 = Some (EvMkdirAll (filepath_Dir (filePath e))) ∧
  (∀ err, fs_MkdirAll env (filepath_Dir (filePath e)) = Some err →
     run (InMemory.GenerateExcelFile env e stocks) =
       (Some (Errorf_w "failed to create directory: " err), [EvMkdirAll (filepath_Dir (filePath e))]) ∧
     never_saves (run (InMemory.GenerateExcelFile env e stocks)).2 ∧
     never_saves (run (Streaming.GenerateExcelFile env e stocks)).2 ∧
     (∀ sw, Streaming.stream stocks = inr sw → tmp_Flush env = None →
        run (Streaming.GenerateExcelFile env e stocks) =
          (Some (Errorf_w "failed to create directory: " err), [EvMkdirAll (filepath_Dir (filePath e))]))) ∧
  (∀ (e1 e2 : error),
     Errorf_w "failed to create directory: " e1 ≠ Errorf_w "failed to save Excel file: " e2 ∧
     Errorf_w "failed to create directory: " e1 ≠ Errorf_w "failed to flush stream writer: " e2 ∧
     Errorf_w "failed to create directory: " e1 ≠ Errorf_w "failed to write headers: " e2 ∧
     Errorf_w "failed to create directory: " e1 ≠ Errorf_w "failed to create stream writer: " e2 ∧
     (∀ row, Errorf_w "failed to create directory: " e1 ≠ "failed to write row " +:+ Sprintf_d row +:+ ": " +:+ e2)).
Proof.
  split_and!.
  - apply InMemory_saves_after_mkdir.
  - apply Streaming_saves_after_mkdir.
  - rewrite InMemory_GenerateExcelFile_run.
    destruct (fs_MkdirAll env _); [done|]. by destruct (fs_SaveAs env _).
  - intros err Hmkdir. split_and!.
    + by rewrite InMemory_GenerateExcelFile_run, Hmkdir.
    + rewrite InMemory_GenerateExcelFile_run, Hmkdir. apply never_saves_mkdir.
    + by eapply Streaming_never_saves_without_directory.
    + intros sw Hstream Hflush.
      by rewrite (Streaming_GenerateExcelFile_run env e stocks sw Hstream), Hflush, Hmkdir.
  - apply writer_errors_distinct.
Qed.

(** On a read-only file system both revisions stop at the directory. *)
Example GenerateExcelFile_readOnly :
  run (InMemory.GenerateExcelFile readOnlyEnv (NewExcelGenerator dataDir excelFile) [sampleStock]) =
    (Some "failed to create directory: mkdir data: read-only file system"%string, [EvMkdirAll "data"]) ∧
  run (Streaming.GenerateExcelFile readOnlyEnv (NewExcelGenerator dataDir excelFile) [sampleStock]) =
    (Some "failed to create directory: mkdir data: read-only file system"%string, [EvMkdirAll "data"]).
Proof. split; vm_compute; reflexivity. Qed.

(** ** A body without entries (C10) *)

(** The writers only append to the log they are given. *)
Lemma InMemory_GenerateExcelFile_frame (env : Env) (e : ExcelGenerator) (stocks : list StockData) (log : list Event) :
  InMemory.GenerateExcelFile env e stocks log =
    ((run (InMemory.GenerateExcelFile env e stocks)).1,
     log ++ (run (InMemory.GenerateExcelFile env e stocks)).2).
Proof.
  unfold run, InMemory.GenerateExcelFile, os_MkdirAll, SaveAs, fmt_Println, bind, emit, ret. simpl.
  destruct (fs_MkdirAll env _); simpl; [done|].
  destruct (fs_SaveAs env _); simpl; by rewrite <- ?app_assoc.
Qed.

Lemma Streaming_GenerateExcelFile_frame (env : Env) (e : ExcelGenerator) (stocks : list StockData) (log : list Event) :
  Streaming.GenerateExcelFile env e stocks log =
    ((run (Streaming.GenerateExcelFile env e stocks)).1,
     log ++ (run (Streaming.GenerateExcelFile env e stocks)).2).
Proof.
  unfold run, Streaming.GenerateExcelFile, Streaming.StreamWriter_Flush, os_MkdirAll, SaveAs,
    fmt_Println, bind, emit, ret.
  destruct (Streaming.stream stocks); simpl; [by rewrite app_nil_r|].
  destruct (tmp_Flush env); simpl; [by rewrite app_nil_r|].
  destruct (fs_MkdirAll env _); simpl; [done|].
  destruct (fs_SaveAs env _); simpl; by rewrite <- ?app_assoc.
Qed.

(** [main] after a successful fetch: the writer runs, and its error, if
    any, is fatal. *)
Lemma InMemory_main_run_fetched (env : Env) (stocks : list StockData) :
  (run (FetchStockData env (NewStockService stockAPIURL))).1 = (stocks, None) →
  run (InMemory.main env) =
    match (run (InMemory.GenerateExcelFile env (NewExcelGenerator dataDir excelFile) stocks)).1 with
    | Some err =>
        (1, (run (FetchStockData env (NewStockService stockAPIURL))).2
              ++ (run (InMemory.GenerateExcelFile env (NewExcelGenerator dataDir excelFile) stocks)).2
              ++ [EvFatal ("Error generating Excel file: " +:+ err)])
    | None =>
        (0, (run (FetchStockData env (NewStockService stockAPIURL))).2
              ++ (run (InMemory.GenerateExcelFile env (NewExcelGenerator dataDir excelFile) stocks)).2)
    end.
Proof.
  intros Hfetch. rewrite InMemory_main_run, Hfetch. unfold bind.
  rewrite InMemory_GenerateExcelFile_frame.
  destruct (run (InMemory.GenerateExcelFile _ _ _)).1; [|done].
  by rewrite log_Fatalf_run, <- app_assoc.
Qed.

Lemma Streaming_main_run_fetched (env : Env) (stocks : list StockData) :
  (run (FetchStockData env (NewStockService stockAPIURL))).1 = (stocks, None) →
  run (Streaming.main env) =
    match (run (Streaming.GenerateExcelFile env (NewExcelGenerator dataDir excelFile) stocks)).1 with
    | Some err =>
        (1, (run (FetchStockData env (NewStockService stockAPIURL))).2
              ++ (run (Streaming.GenerateExcelFile env (NewExcelGenerator dataDir excelFile) stocks)).2
              ++ [EvFatal ("Error generating Excel file: " +:+ err)])
    | None =>
        (0, (run (FetchStockData env (NewStockService stockAPIURL))).2
              ++ (run (Streaming.GenerateExcelFile env (NewExcelGenerator dataDir excelFile) stocks)).2)
    end.
Proof.
  intros Hfetch. rewrite Streaming_main_run, Hfetch. unfold bind.
  rewrite Streaming_GenerateExcelFile_frame.
  destruct (run (Streaming.GenerateExcelFile _ _ _)).1; [|done].
  by rewrite log_Fatalf_run, <- app_assoc.
Qed.

(** Members that select no field, or select [Response] with [null], leave
    the zero value as it is. *)
Lemma into_struct_no_response (members : list (string * Json.value)) :
  (∀ key v, (key, v) ∈ members → Json.key_matches "response" key = true → v = Json.Null) →
  Json.into_struct StockAPIResponse_field members zeroStockAPIResponse = inr zeroStockAPIResponse.
Proof.
  induction members as [|[key v] members IH]; intros Hnull; simpl; [done|].
  unfold StockAPIResponse_field at 1.
  destruct (Json.key_matches "response" key) eqn:Hkey.
  - rewrite (Hnull key v) by (done || apply elem_of_cons; by left). simpl.
    apply IH. intros key' v' Hin. apply Hnull, elem_of_cons. by right.
  - apply IH. intros key' v' Hin. apply Hnull, elem_of_cons. by right.
Qed.

(** C10, as amended.  If the response has status 200 and its body is a JSON
    object in which every member whose key selects the [response] field
    (the key equals "response" up to letter case) is [null], no such member
    at all included, then [FetchStockData] returns no error and no entries,
    and, the file system working, [main] goes on to save a workbook with the
    header row only. *)
Theorem body_without_entries (env : Env) (members : list (string * Json.value)) :
  net_Get env stockAPIURL = inr (mkHttpResponse 200 (BodyJSON (Json.Object members))) →
  (∀ key v, (key, v) ∈ members → Json.key_matches "response" key = true → v = Json.Null) →
  (run (FetchStockData env (NewStockService stockAPIURL))).1 = ([], None) ∧
  (fs_MkdirAll env "data" = None → fs_SaveAs env "data/stock_data.xlsx" = None →
   run (InMemory.main env) =
     (0, [EvHttpGet stockAPIURL; EvBodyClose; EvMkdirAll "data";
          EvSaveAs "data/stock_data.xlsx" (oneSheet header_cells);
          EvPrintln "Excel file saved at: data/stock_data.xlsx"]) ∧
   (tmp_Flush env = None → run (Streaming.main env) = run (InMemory.main env))).
Proof.
  intros Hget Hnull.
  assert (run (FetchStockData env (NewStockService stockAPIURL)) =
            (([], None), [EvHttpGet stockAPIURL; EvBodyClose])) as Hfetch.
  { rewrite FetchStockData_run.
    change (apiURL (NewStockService stockAPIURL)) with stockAPIURL. rewrite Hget. simpl.
    by rewrite into_struct_no_response. }
  split; [by rewrite Hfetch|].
  intros Hmkdir Hsave.
  assert (run (InMemory.GenerateExcelFile env (NewExcelGenerator dataDir excelFile) []) =
            (None, [EvMkdirAll "data"; EvSaveAs "data/stock_data.xlsx" (oneSheet header_cells);
                    EvPrintln "Excel file saved at: data/stock_data.xlsx"])) as Hmem.
  { rewrite InMemory_GenerateExcelFile_run.
    change (filepath_Dir (filePath (NewExcelGenerator dataDir excelFile))) with "data"%string.
    change (filePath (NewExcelGenerator dataDir excelFile)) with "data/stock_data.xlsx"%string.
    by rewrite Hmkdir, Hsave, InMemory_workbook_nil. }
  split.
  - rewrite (InMemory_main_run_fetched env []) by (by rewrite Hfetch).
    by rewrite Hmem, Hfetch.
  - intros Hflush.
    rewrite (InMemory_main_run_fetched env []) by (by rewrite Hfetch).
    rewrite (Streaming_main_run_fetched env []) by (by rewrite Hfetch).
    assert (run (Streaming.GenerateExcelFile env (NewExcelGenerator dataDir excelFile) []) =
            run (InMemory.GenerateExcelFile env (NewExcelGenerator dataDir excelFile) [])) as ->; [|done].
    rewrite (Streaming_GenerateExcelFile_run env _ [] _ Streaming_stream_nil), Hflush.
    by rewrite InMemory_GenerateExcelFile_run, InMemory_workbook_nil.
Qed.

Lemma body_without_entries_witness :
  (run (FetchStockData (okEnv (Json.Object nullBody))
          (NewStockService stockAPIURL))).1 = ([], None) ∧
  (fs_MkdirAll (okEnv (Json.Object nullBody)) "data" = None →
   fs_SaveAs (okEnv (Json.Object nullBody)) "data/stock_data.xlsx" = None →
   run (InMemory.main (okEnv (Json.Object nullBody))) =
     (0, [EvHttpGet stockAPIURL; EvBodyClose; EvMkdirAll "data";
          EvSaveAs "data/stock_data.xlsx" (oneSheet header_cells);
          EvPrintln "Excel file saved at: data/stock_data.xlsx"]) ∧
   (tmp_Flush (okEnv (Json.Object nullBody)) = None →
    run (Streaming.main (okEnv (Json.Object nullBody))) =
    run (InMemory.main (okEnv (Json.Object nullBody))))).
Proof.
  apply (body_without_entries (okEnv (Json.Object nullBody)) nullBody).
  - reflexivity.
  - intros key v Hin Hkey. unfold nullBody in Hin.
    apply elem_of_cons in Hin as [Hin|Hin].
    + injection Hin as -> ->. vm_compute in Hkey. discriminate.
    + apply list_elem_of_singleton in Hin. by injection Hin as -> ->.
Defined.

(** C10 as stated fails for keys that differ from "response" in letter case
    only: the object has no member with the key "response", yet its member
    selects the field.  With a string under [Response] the fetch reports a
    decoding error; with an array under [RESPONSE] it returns the entries
    of that array. *)
Lemma key_case_is_ignored :
  has_key "response" [("Response"%string, Json.Str "none")] = false ∧
  (run (FetchStockData (okEnv (Json.Object [("Response"%string, Json.Str "none")]))
          (NewStockService stockAPIURL))).1 =
    ([], Some (Errorf_w "failed to decode JSON response: "
                 (Json.UnmarshalTypeError (Json.Str "none") "[]main.StockData"))) ∧
  has_key "response" [("RESPONSE"%string, Json.Array [Json.Object [("ticker"%string, Json.Str "ABC")]])] = false ∧
  (run (FetchStockData
          (okEnv (Json.Object [("RESPONSE"%string, Json.Array [Json.Object [("ticker"%string, Json.Str "ABC")]])]))
          (NewStockService stockAPIURL))).1 =
    ([mkStockData "ABC" "" "" 0%float 0%float 0%float], None).
Proof. split_and!; vm_compute; reflexivity. Qed.

(** * Further properties of the code *)

#[local] Set Warnings "-clear-no-such-hyp".

(** ** The workbook *)

Lemma range_app {A S : Type} (body : Z → A → S → S) (l1 l2 : list A) (i : Z) (s : S) :
  range body i (l1 ++ l2) s = range body (i + Z.of_nat (length l1)) l2 (range body i l1 s).
Proof.
  revert i s. induction l1 as [|x l1 IH]; intros i s; simpl.
  - by replace (i + Z.of_nat 0) with i by lia.
  - rewrite IH. f_equal. lia.
Qed.

Lemma range_stock_cells_past_last_row (stocks : list StockData) (i : Z) (ws : Excelize.Sheet) :
  Excelize.TotalRows < i + 2 → range stock_cells i stocks ws = ws.
Proof.
  revert i. induction stocks as [|stock stocks IH]; intros i Hi; simpl; [done|].
  unfold stock_cells at 2. destruct (Z.leb_spec (i + 2) Excelize.TotalRows); [lia|].
  apply IH. lia.
Qed.

(** X1.  What lines 72-73 of either revision leave: one sheet, called
    [Stock Data]; the default [Sheet1] is gone. *)
Theorem workbook_has_one_sheet (stocks : list StockData) :
  (Excelize.Sheets (InMemory.workbook stocks)).*1 = [sheetName] ∧
  Excelize.GetSheetName (InMemory.workbook stocks) 0 = sheetName ∧
  Excelize.getSheet (InMemory.workbook stocks) "Sheet1" = None ∧
  (∀ f, Streaming.workbook stocks = inr f →
     (Excelize.Sheets f).*1 = [sheetName] ∧ Excelize.getSheet f "Sheet1" = None).
Proof.
  rewrite InMemory_workbook_cells. split_and!; try done.
  by intros f [_ ->]%Streaming_workbook_is_inr.
Qed.

(** X2.  The in-memory writer drops the entries that have no row: the workbook
    of a list is the workbook of its first 1048575 entries. *)
Theorem InMemory_drops_entries_past_the_sheet (stocks : list StockData) :
  InMemory.workbook stocks =
    InMemory.workbook (take (Z.to_nat (Excelize.TotalRows - 1)) stocks).
Proof.
  rewrite !InMemory_workbook_cells. f_equal.
  rewrite <- (take_drop (Z.to_nat (Excelize.TotalRows - 1)) stocks) at 1.
  rewrite range_app.
  destruct (decide (length stocks ≤ Z.to_nat (Excelize.TotalRows - 1))%nat) as [Hle|Hgt].
  - by rewrite drop_ge by done.
  - rewrite range_stock_cells_past_last_row; [done|].
    rewrite length_take. unfold Excelize.TotalRows in *. lia.
Qed.

(** X3.  Appending entries leaves the rows of the earlier ones, and the header
    row, as they are. *)
Theorem appending_keeps_earlier_rows (stocks more : list StockData) (c r : Z) :
  r ≤ Z.of_nat (length stocks) + 1 →
  cellAt (InMemory.workbook (stocks ++ more)) sheetName c r =
  cellAt (InMemory.workbook stocks) sheetName c r.
Proof.
  intros Hr. rewrite !InMemory_workbook_cells, !cellAt_oneSheet.
  rewrite range_app. apply lookup_range_stock_cells_other. lia.
Qed.

Lemma appending_keeps_earlier_rows_witness :
  cellAt (InMemory.workbook ([sampleStock] ++ [zeroStockData])) sheetName 1 2 =
  cellAt (InMemory.workbook [sampleStock]) sheetName 1 2.
Proof.
  apply (appending_keeps_earlier_rows [sampleStock] [zeroStockData] 1 2).
  vm_compute. discriminate.
Defined.

(** ** The calls of the writers *)

Lemma Streaming_GenerateExcelFile_run_fits (env : Env) (e : ExcelGenerator) (stocks : list StockData) :
  fits stocks →
  run (Streaming.GenerateExcelFile env e stocks) =
    match tmp_Flush env with
    | Some err => (Some (Errorf_w "failed to flush stream writer: " err), [])
    | None => run (InMemory.GenerateExcelFile env e stocks)
    end.
Proof.
  intros Hfit.
  destruct (Streaming_stream_cases stocks) as [[_ (sw & Hsw & Hwb)]|[Hgt _]]; [|unfold fits in *; lia].
  rewrite (Streaming_GenerateExcelFile_run env e stocks sw Hsw), Hwb.
  by rewrite InMemory_GenerateExcelFile_run.
Qed.

Lemma Streaming_GenerateExcelFile_run_too_long (env : Env) (e : ExcelGenerator) (stocks : list StockData) :
  ¬ fits stocks →
  run (Streaming.GenerateExcelFile env e stocks) =
    (Some ("failed to write row 1048577: " +:+ Excelize.ErrMaxRows), []).
Proof.
  intros Hfit. apply Streaming_GenerateExcelFile_run_error, Streaming_stream_too_long.
  unfold fits in *. lia.
Qed.

(** X4.  The in-memory writer returns no error exactly when the directory could
    be made and the file saved: the entries never make it fail. *)
Theorem InMemory_succeeds_iff_the_disk_works (env : Env) (e : ExcelGenerator) (stocks : list StockData) :
  (run (InMemory.GenerateExcelFile env e stocks)).1 = None ↔
  fs_MkdirAll env (filepath_Dir (filePath e)) = None ∧ fs_SaveAs env (filePath e) = None.
Proof.
  rewrite InMemory_GenerateExcelFile_run.
  destruct (fs_MkdirAll env _); [naive_solver|].
  destruct (fs_SaveAs env _); naive_solver.
Qed.

(** X5.  The streaming writer returns no error exactly when the entries fit the
    sheet, the stream could be flushed, the directory made and the file
    saved. *)
Theorem Streaming_succeeds_iff (env : Env) (e : ExcelGenerator) (stocks : list StockData) :
  (run (Streaming.GenerateExcelFile env e stocks)).1 = None ↔
  fits stocks ∧ tmp_Flush env = None ∧
  fs_MkdirAll env (filepath_Dir (filePath e)) = None ∧ fs_SaveAs env (filePath e) = None.
Proof.
  destruct (decide (fits stocks)) as [Hfit|Hfit].
  - rewrite Streaming_GenerateExcelFile_run_fits by done.
    destruct (tmp_Flush env); [naive_solver|].
    rewrite InMemory_GenerateExcelFile_run.
    destruct (fs_MkdirAll env _); [naive_solver|].
    destruct (fs_SaveAs env _); naive_solver.
  - rewrite Streaming_GenerateExcelFile_run_too_long by done. naive_solver.
Qed.

(** X6.  The streaming writer never leaves a partial file: when a row has no
    place in the sheet, or the stream cannot be flushed, it returns the
    error of that step and has not touched the file system. *)
Theorem Streaming_fails_before_touching_the_disk (env : Env) (e : ExcelGenerator) (stocks : list StockData) :
  (¬ fits stocks →
     run (Streaming.GenerateExcelFile env e stocks) =
       (Some ("failed to write row 1048577: " +:+ Excelize.ErrMaxRows), [])) ∧
  (∀ err, fits stocks → tmp_Flush env = Some err →
     run (Streaming.GenerateExcelFile env e stocks) =
       (Some (Errorf_w "failed to flush stream writer: " err), [])).
Proof.
  split.
  - apply Streaming_GenerateExcelFile_run_too_long.
  - intros err Hfit Hflush. by rewrite Streaming_GenerateExcelFile_run_fits, Hflush.
Qed.

(** X7.  When the directory exists but the file cannot be saved, both writers
    return "failed to save Excel file: ..." with the reason, after one
    attempt to save, and print no notice. *)
Theorem save_failure_is_reported (env : Env) (e : ExcelGenerator) (stocks : list StockData) (err : error) :
  fs_MkdirAll env (filepath_Dir (filePath e)) = None →
  fs_SaveAs env (filePath e) = Some err →
  run (InMemory.GenerateExcelFile env e stocks) =
    (Some (Errorf_w "failed to save Excel file: " err),
     [EvMkdirAll (filepath_Dir (filePath e)); EvSaveAs (filePath e) (InMemory.workbook stocks)]) ∧
  (fits stocks → tmp_Flush env = None →
   run (Streaming.GenerateExcelFile env e stocks) = run (InMemory.GenerateExcelFile env e stocks)).
Proof.
  intros Hmkdir Hsave. split.
  - by rewrite InMemory_GenerateExcelFile_run, Hmkdir, Hsave.
  - intros Hfit Hflush. by rewrite Streaming_GenerateExcelFile_run_fits, Hflush.
Qed.

Lemma save_failure_is_reported_witness :
  run (InMemory.GenerateExcelFile diskFullEnv (NewExcelGenerator dataDir excelFile) [sampleStock]) =
    (Some (Errorf_w "failed to save Excel file: " "write data/stock_data.xlsx: no space left on device"),
     [EvMkdirAll (filepath_Dir (filePath (NewExcelGenerator dataDir excelFile)));
      EvSaveAs (filePath (NewExcelGenerator dataDir excelFile)) (InMemory.workbook [sampleStock])]) ∧
  (fits [sampleStock] → tmp_Flush diskFullEnv = None →
   run (Streaming.GenerateExcelFile diskFullEnv (NewExcelGenerator dataDir excelFile) [sampleStock]) =
   run (InMemory.GenerateExcelFile diskFullEnv (NewExcelGenerator dataDir excelFile) [sampleStock])).
Proof.
  apply (save_failure_is_reported diskFullEnv (NewExcelGenerator dataDir excelFile) [sampleStock]
           "write data/stock_data.xlsx: no space left on device").
  - reflexivity.
  - reflexivity.
Defined.

(** The cases of the log of a call of either writer. *)
Lemma writer_log_cases (env : Env) (e : ExcelGenerator) (stocks : list StockData) :
  (∃ f,
     ((run (InMemory.GenerateExcelFile env e stocks)).1 = None ∧
      (run (InMemory.GenerateExcelFile env e stocks)).2 =
        [EvMkdirAll (filepath_Dir (filePath e)); EvSaveAs (filePath e) f;
         EvPrintln ("Excel file saved at: " +:+ filePath e)]) ∨
     ((run (InMemory.GenerateExcelFile env e stocks)).1 ≠ None ∧
      ((run (InMemory.GenerateExcelFile env e stocks)).2 = [EvMkdirAll (filepath_Dir (filePath e))] ∨
       (run (InMemory.GenerateExcelFile env e stocks)).2 =
         [EvMkdirAll (filepath_Dir (filePath e)); EvSaveAs (filePath e) f]))) ∧
  (∃ f,
     ((run (Streaming.GenerateExcelFile env e stocks)).1 = None ∧
      (run (Streaming.GenerateExcelFile env e stocks)).2 =
        [EvMkdirAll (filepath_Dir (filePath e)); EvSaveAs (filePath e) f;
         EvPrintln ("Excel file saved at: " +:+ filePath e)]) ∨
     ((run (Streaming.GenerateExcelFile env e stocks)).1 ≠ None ∧
      ((run (Streaming.GenerateExcelFile env e stocks)).2 = [] ∨
       (run (Streaming.GenerateExcelFile env e stocks)).2 = [EvMkdirAll (filepath_Dir (filePath e))] ∨
       (run (Streaming.GenerateExcelFile env e stocks)).2 =
         [EvMkdirAll (filepath_Dir (filePath e)); EvSaveAs (filePath e) f]))).
Proof.
  assert (∃ f,
     ((run (InMemory.GenerateExcelFile env e stocks)).1 = None ∧
      (run (InMemory.GenerateExcelFile env e stocks)).2 =
        [EvMkdirAll (filepath_Dir (filePath e)); EvSaveAs (filePath e) f;
         EvPrintln ("Excel file saved at: " +:+ filePath e)]) ∨
     ((run (InMemory.GenerateExcelFile env e stocks)).1 ≠ None ∧
      ((run (InMemory.GenerateExcelFile env e stocks)).2 = [EvMkdirAll (filepath_Dir (filePath e))] ∨
       (run (InMemory.GenerateExcelFile env e stocks)).2 =
         [EvMkdirAll (filepath_Dir (filePath e)); EvSaveAs (filePath e) f]))) as Hmem.
  { exists (InMemory.workbook stocks). rewrite InMemory_GenerateExcelFile_run.
    destruct (fs_MkdirAll env _); [naive_solver|].
    destruct (fs_SaveAs env _); naive_solver. }
  split; [done|].
  destruct (decide (fits stocks)) as [Hfit|Hfit].
  - rewrite Streaming_GenerateExcelFile_run_fits by done.
    destruct (tmp_Flush env); [exists (InMemory.workbook stocks); naive_solver|].
    destruct Hmem as [f Hmem]. exists f. naive_solver.
  - rewrite Streaming_GenerateExcelFile_run_too_long by done.
    exists (InMemory.workbook stocks). naive_solver.
Qed.

(** X8.  Either writer prints the notice "Excel file saved at: <path>" exactly
    when it returns no error, and then as the last thing it does. *)
Theorem notice_iff_success (env : Env) (e : ExcelGenerator) (stocks : list StockData) :
  ((run (InMemory.GenerateExcelFile env e stocks)).1 = None ↔
   last (run (InMemory.GenerateExcelFile env e stocks)).2 =
     Some (EvPrintln ("Excel file saved at: " +:+ filePath e))) ∧
  ((run (InMemory.GenerateExcelFile env e stocks)).1 = None ↔
   ∃ line, EvPrintln line ∈ (run (InMemory.GenerateExcelFile env e stocks)).2) ∧
  ((run (Streaming.GenerateExcelFile env e stocks)).1 = None ↔
   last (run (Streaming.GenerateExcelFile env e stocks)).2 =
     Some (EvPrintln ("Excel file saved at: " +:+ filePath e))) ∧
  ((run (Streaming.GenerateExcelFile env e stocks)).1 = None ↔
   ∃ line, EvPrintln line ∈ (run (Streaming.GenerateExcelFile env e stocks)).2).
Proof.
  destruct (writer_log_cases env e stocks) as [[f1 Hmem] [f2 Hstream]].
  split_and!.
  - destruct Hmem as [[Hr ->]|[Hr [->| ->]]]; naive_solver.
  - destruct Hmem as [[Hr ->]|[Hr [->| ->]]]; split; try naive_solver.
    + intros _. eexists. apply elem_of_cons. right. apply elem_of_cons. right.
      apply elem_of_cons. by left.
    + intros [line Hin]. apply list_elem_of_singleton in Hin. discriminate.
    + intros [line Hin]. rewrite !elem_of_cons, elem_of_nil in Hin. naive_solver.
  - destruct Hstream as [[Hr ->]|[Hr [->|[->| ->]]]]; naive_solver.
  - destruct Hstream as [[Hr ->]|[Hr [->|[->| ->]]]]; split; try naive_solver.
    + intros _. eexists. apply elem_of_cons. right. apply elem_of_cons. right.
      apply elem_of_cons. by left.
    + intros [line Hin]. by apply elem_of_nil in Hin.
    + intros [line Hin]. apply list_elem_of_singleton in Hin. discriminate.
    + intros [line Hin]. rewrite !elem_of_cons, elem_of_nil in Hin. naive_solver.
Qed.

(** X9.  A call of either writer makes the directory at most once, saves at most
    once and only to the path of the generator, and does nothing else to
    the outside world: its log is a beginning of [MkdirAll; SaveAs; Println]. *)
Theorem writer_effects_are_bounded (env : Env) (e : ExcelGenerator) (stocks : list StockData) :
  (run (InMemory.GenerateExcelFile env e stocks)).2 `prefix_of`
    [EvMkdirAll (filepath_Dir (filePath e)); EvSaveAs (filePath e) (InMemory.workbook stocks);
     EvPrintln ("Excel file saved at: " +:+ filePath e)] ∧
  (run (Streaming.GenerateExcelFile env e stocks)).2 `prefix_of`
    [EvMkdirAll (filepath_Dir (filePath e)); EvSaveAs (filePath e) (InMemory.workbook stocks);
     EvPrintln ("Excel file saved at: " +:+ filePath e)].
Proof.
  assert ((run (InMemory.GenerateExcelFile env e stocks)).2 `prefix_of`
    [EvMkdirAll (filepath_Dir (filePath e)); EvSaveAs (filePath e) (InMemory.workbook stocks);
     EvPrintln ("Excel file saved at: " +:+ filePath e)]) as Hmem.
  { rewrite InMemory_GenerateExcelFile_run.
    destruct (fs_MkdirAll env _); simpl; [by eexists [_; _]|].
    destruct (fs_SaveAs env _); simpl; [by eexists [_]|by exists []]. }
  split; [done|].
  destruct (decide (fits stocks)) as [Hfit|Hfit].
  - rewrite Streaming_GenerateExcelFile_run_fits by done.
    destruct (tmp_Flush env); [apply prefix_nil|done].
  - rewrite Streaming_GenerateExcelFile_run_too_long by done. apply prefix_nil.
Qed.

(** ** The process, end to end *)

Lemma notice_last (env : Env) (e : ExcelGenerator) (stocks : list StockData) :
  ((run (InMemory.GenerateExcelFile env e stocks)).1 = None →
   last (run (InMemory.GenerateExcelFile env e stocks)).2 =
     Some (EvPrintln ("Excel file saved at: " +:+ filePath e))) ∧
  ((run (Streaming.GenerateExcelFile env e stocks)).1 = None →
   last (run (Streaming.GenerateExcelFile env e stocks)).2 =
     Some (EvPrintln ("Excel file saved at: " +:+ filePath e))).
Proof.
  destruct (writer_log_cases env e stocks) as [[f1 Hmem] [f2 Hstream]]. split.
  - destruct Hmem as [[Hr ->]|[Hr _]]; naive_solver.
  - destruct Hstream as [[Hr ->]|[Hr _]]; naive_solver.
Qed.


Lemma FetchStockData_no_fatal (env : Env) (s : StockService) :
  Forall (fun ev => isFatal ev = false) (run (FetchStockData env s)).2.
Proof.
  rewrite FetchStockData_run.
  destruct (net_Get env (apiURL s)); simpl; repeat constructor.
Qed.

Lemma writer_no_fatal (env : Env) (e : ExcelGenerator) (stocks : list StockData) :
  Forall (fun ev => isFatal ev = false) (run (InMemory.GenerateExcelFile env e stocks)).2 ∧
  Forall (fun ev => isFatal ev = false) (run (Streaming.GenerateExcelFile env e stocks)).2.
Proof.
  destruct (writer_log_cases env e stocks) as [[f1 Hmem] [f2 Hstream]]. split.
  - destruct Hmem as [[_ ->]|[_ [->| ->]]]; repeat constructor.
  - destruct Hstream as [[_ ->]|[_ [->|[->| ->]]]]; repeat constructor.
Qed.

(** X10.  A run of [main] that fetches the entries and finds the disk working:
    one GET, the body closed, the directory [data] made, the workbook of
    exactly the fetched entries saved at [data/stock_data.xlsx], the notice
    printed, exit status 0. *)
Theorem main_saves_what_it_fetched (env : Env) (resp : HttpResponse) (r : StockAPIResponse) :
  net_Get env stockAPIURL = inr resp → StatusCode resp = 200 →
  Decode (Body resp) zeroStockAPIResponse = inr r →
  fs_MkdirAll env "data" = None → fs_SaveAs env "data/stock_data.xlsx" = None →
  run (InMemory.main env) =
    (0, [EvHttpGet stockAPIURL; EvBodyClose; EvMkdirAll "data";
         EvSaveAs "data/stock_data.xlsx" (InMemory.workbook (Response r));
         EvPrintln "Excel file saved at: data/stock_data.xlsx"]) ∧
  (fits (Response r) → tmp_Flush env = None → run (Streaming.main env) = run (InMemory.main env)).
Proof.
  intros Hget Hcode Hdecode Hmkdir Hsave.
  assert (run (FetchStockData env (NewStockService stockAPIURL)) =
            ((Response r, None), [EvHttpGet stockAPIURL; EvBodyClose])) as Hfetch.
  { rewrite FetchStockData_run.
    change (apiURL (NewStockService stockAPIURL)) with stockAPIURL.
    by rewrite Hget, Hcode, Hdecode. }
  assert (run (InMemory.GenerateExcelFile env (NewExcelGenerator dataDir excelFile) (Response r)) =
            (None, [EvMkdirAll "data"; EvSaveAs "data/stock_data.xlsx" (InMemory.workbook (Response r));
                    EvPrintln "Excel file saved at: data/stock_data.xlsx"])) as Hmem.
  { rewrite InMemory_GenerateExcelFile_run.
    change (filepath_Dir (filePath (NewExcelGenerator dataDir excelFile))) with "data"%string.
    change (filePath (NewExcelGenerator dataDir excelFile)) with "data/stock_data.xlsx"%string.
    by rewrite Hmkdir, Hsave. }
  split.
  - rewrite (InMemory_main_run_fetched env (Response r)) by (by rewrite Hfetch).
    by rewrite Hmem, Hfetch.
  - intros Hfit Hflush.
    rewrite (InMemory_main_run_fetched env (Response r)) by (by rewrite Hfetch).
    rewrite (Streaming_main_run_fetched env (Response r)) by (by rewrite Hfetch).
    by rewrite Streaming_GenerateExcelFile_run_fits, Hflush.
Qed.

Lemma main_saves_what_it_fetched_witness :
  run (InMemory.main (okEnv sampleBody)) =
    (0, [EvHttpGet stockAPIURL; EvBodyClose; EvMkdirAll "data";
         EvSaveAs "data/stock_data.xlsx" (InMemory.workbook (Response (mkStockAPIResponse [sampleStock])));
         EvPrintln "Excel file saved at: data/stock_data.xlsx"]) ∧
  (fits (Response (mkStockAPIResponse [sampleStock])) → tmp_Flush (okEnv sampleBody) = None →
   run (Streaming.main (okEnv sampleBody)) = run (InMemory.main (okEnv sampleBody))).
Proof.
  apply (main_saves_what_it_fetched (okEnv sampleBody) (mkHttpResponse 200 (BodyJSON sampleBody))
           (mkStockAPIResponse [sampleStock])).
  - reflexivity.
  - reflexivity.
  - vm_compute. reflexivity.
  - reflexivity.
  - reflexivity.
Defined.

(** X11.  How a run of [main] ends, in either revision: with status 0, no fatal
    line in the log and the notice of the saved file as its last event; or
    with status 1 and exactly one fatal line, the last event of the log. *)
Theorem main_exit_status (env : Env) :
  (((run (InMemory.main env)).1 = 0 ∧
    Forall (fun ev => isFatal ev = false) (run (InMemory.main env)).2 ∧
    last (run (InMemory.main env)).2 = Some (EvPrintln "Excel file saved at: data/stock_data.xlsx")) ∨
   ((run (InMemory.main env)).1 = 1 ∧
    ∃ log line, (run (InMemory.main env)).2 = log ++ [EvFatal line] ∧
                Forall (fun ev => isFatal ev = false) log)) ∧
  (((run (Streaming.main env)).1 = 0 ∧
    Forall (fun ev => isFatal ev = false) (run (Streaming.main env)).2 ∧
    last (run (Streaming.main env)).2 = Some (EvPrintln "Excel file saved at: data/stock_data.xlsx")) ∨
   ((run (Streaming.main env)).1 = 1 ∧
    ∃ log line, (run (Streaming.main env)).2 = log ++ [EvFatal line] ∧
                Forall (fun ev => isFatal ev = false) log)).
Proof.
  pose proof (FetchStockData_no_fatal env (NewStockService stockAPIURL)) as Hfetch.
  destruct (run (FetchStockData env (NewStockService stockAPIURL))).1 as [stocks [err|]] eqn:Hres.
  - rewrite Streaming_main_run, InMemory_main_run, Hres, log_Fatalf_run.
    split; right; (split; [done|]); eauto.
  - pose proof (writer_no_fatal env (NewExcelGenerator dataDir excelFile) stocks) as [Hmem Hstream].
    pose proof (notice_last env (NewExcelGenerator dataDir excelFile) stocks) as [Hlast1 Hlast2].
    rewrite (InMemory_main_run_fetched env stocks Hres), (Streaming_main_run_fetched env stocks Hres).
    split.
    + destruct (run (InMemory.GenerateExcelFile _ _ _)).1 as [err|] eqn:Hw.
      * right. split; [done|]. rewrite app_assoc. do 2 eexists. split; [done|].
        by apply Forall_app.
      * left. split_and!; [done|by apply Forall_app|].
        simpl. rewrite last_app. by rewrite (Hlast1 eq_refl).
    + destruct (run (Streaming.GenerateExcelFile _ _ _)).1 as [err|] eqn:Hw.
      * right. split; [done|]. rewrite app_assoc. do 2 eexists. split; [done|].
        by apply Forall_app.
      * left. split_and!; [done|by apply Forall_app|].
        simpl. rewrite last_app. by rewrite (Hlast2 eq_refl).
Qed.

(** X12.  When the entries are fetched but the directory cannot be made, [main]
    ends with status 1 and the fatal line "Error generating Excel file:
    failed to create directory: ..."; nothing is saved. *)
Theorem directory_failure_ends_the_run (env : Env) (resp : HttpResponse) (r : StockAPIResponse) (err : error) :
  net_Get env stockAPIURL = inr resp → StatusCode resp = 200 →
  Decode (Body resp) zeroStockAPIResponse = inr r →
  fs_MkdirAll env "data" = Some err →
  run (InMemory.main env) =
    (1, [EvHttpGet stockAPIURL; EvBodyClose; EvMkdirAll "data";
         EvFatal ("Error generating Excel file: failed to create directory: " +:+ err)]) ∧
  (fits (Response r) → tmp_Flush env = None → run (Streaming.main env) = run (InMemory.main env)).
Proof.
  intros Hget Hcode Hdecode Hmkdir.
  assert (run (FetchStockData env (NewStockService stockAPIURL)) =
            ((Response r, None), [EvHttpGet stockAPIURL; EvBodyClose])) as Hfetch.
  { rewrite FetchStockData_run.
    change (apiURL (NewStockService stockAPIURL)) with stockAPIURL.
    by rewrite Hget, Hcode, Hdecode. }
  assert (run (InMemory.GenerateExcelFile env (NewExcelGenerator dataDir excelFile) (Response r)) =
            (Some (Errorf_w "failed to create directory: " err), [EvMkdirAll "data"])) as Hmem.
  { rewrite InMemory_GenerateExcelFile_run.
    change (filepath_Dir (filePath (NewExcelGenerator dataDir excelFile))) with "data"%string.
    by rewrite Hmkdir. }
  split.
  - rewrite (InMemory_main_run_fetched env (Response r)) by (by rewrite Hfetch).
    by rewrite Hmem, Hfetch.
  - intros Hfit Hflush.
    rewrite (InMemory_main_run_fetched env (Response r)) by (by rewrite Hfetch).
    rewrite (Streaming_main_run_fetched env (Response r)) by (by rewrite Hfetch).
    by rewrite Streaming_GenerateExcelFile_run_fits, Hflush.
Qed.

Lemma directory_failure_ends_the_run_witness :
  run (InMemory.main readOnlyEnv) =
    (1, [EvHttpGet stockAPIURL; EvBodyClose; EvMkdirAll "data";
         EvFatal ("Error generating Excel file: failed to create directory: "
                  +:+ "mkdir data: read-only file system")]) ∧
  (fits (Response (mkStockAPIResponse [sampleStock])) → tmp_Flush readOnlyEnv = None →
   run (Streaming.main readOnlyEnv) = run (InMemory.main readOnlyEnv)).
Proof.
  apply (directory_failure_ends_the_run readOnlyEnv (mkHttpResponse 200 (BodyJSON sampleBody))
           (mkStockAPIResponse [sampleStock]) "mkdir data: read-only file system").
  - reflexivity.
  - reflexivity.
  - vm_compute. reflexivity.
  - reflexivity.
Defined.

(** ** The fetcher and the bodies it decodes *)

(** X13.  [FetchStockData] sends one GET, to the URL of the service, before
    anything else, on every path; after a transport error there is no body
    and nothing is closed. *)
Theorem fetch_sends_one_GET (env : Env) (s : StockService) :
  head (run (FetchStockData env s)).2 = Some (EvHttpGet (apiURL s)) ∧
  length (List.filter isHttpGet (run (FetchStockData env s)).2) = 1%nat ∧
  (∀ err, net_Get env (apiURL s) = inl err →
     (run (FetchStockData env s)).2 = [EvHttpGet (apiURL s)]).
Proof.
  rewrite FetchStockData_run.
  destruct (net_Get env (apiURL s)); split_and!; try done.
Qed.

Lemma into_StockData_json_of_StockData (s : StockData) :
  into_StockData zeroStockData (json_of_StockData s) = inr s.
Proof. destruct s. vm_compute. reflexivity. Qed.

Lemma into_elems_json_of_StockData (stocks : list StockData) :
  Json.into_elems (into_StockData zeroStockData) (List.map json_of_StockData stocks) = inr stocks.
Proof.
  induction stocks as [|s stocks IH]; [done|].
  change (List.map json_of_StockData (s :: stocks))
    with (json_of_StockData s :: List.map json_of_StockData stocks).
  cbn [Json.into_elems]. by rewrite into_StockData_json_of_StockData, IH.
Qed.

Lemma Decode_body_of (stocks : list StockData) :
  Decode (BodyJSON (body_of stocks)) zeroStockAPIResponse = inr (mkStockAPIResponse stocks).
Proof.
  unfold Decode, body_of, into_StockAPIResponse. cbn [Json.into_struct].
  unfold StockAPIResponse_field.
  change (Json.key_matches "response" "response") with true. cbn iota.
  unfold into_StockData_slice. by rewrite into_elems_json_of_StockData.
Qed.

(** X14.  A body that carries a list of entries under the tagged keys decodes to
    that list, every entry in its place and every field as sent: with
    status 200, [FetchStockData] returns exactly these entries. *)
Theorem fetch_returns_the_entries_sent (env : Env) (s : StockService) (stocks : list StockData) :
  net_Get env (apiURL s) = inr (mkHttpResponse 200 (BodyJSON (body_of stocks))) →
  (run (FetchStockData env s)).1 = (stocks, None).
Proof.
  intros Hget. rewrite FetchStockData_run, Hget. simpl StatusCode. simpl Body.
  by rewrite Decode_body_of.
Qed.

Lemma fetch_returns_the_entries_sent_witness :
  (run (FetchStockData (okEnv (body_of [sampleStock; zeroStockData])) (NewStockService stockAPIURL))).1 =
    ([sampleStock; zeroStockData], None).
Proof.
  apply (fetch_returns_the_entries_sent (okEnv (body_of [sampleStock; zeroStockData]))
           (NewStockService stockAPIURL) [sampleStock; zeroStockData]).
  reflexivity.
Defined.

Lemma StockData_field_wrongly_typed (key : string) (v : Json.value) (cur : StockData) :
  wrongly_typed key v = true → ∃ err, StockData_field key v cur = inl err.
Proof.
  unfold wrongly_typed, StockData_field.
  repeat (destruct (Json.key_matches _ key); [destruct v; simpl; try discriminate; eauto|]).
  discriminate.
Qed.

Lemma into_struct_wrongly_typed (members : list (string * Json.value)) (key : string) (v : Json.value) (cur : StockData) :
  (key, v) ∈ members → wrongly_typed key v = true →
  ∃ err, Json.into_struct StockData_field members cur = inl err.
Proof.
  intros Hin Hwrong. revert cur.
  induction members as [|[key' v'] members IH]; intros cur; [by apply elem_of_nil in Hin|].
  simpl. apply elem_of_cons in Hin as [[= <- <-]|Hin].
  - destruct (StockData_field_wrongly_typed key v cur Hwrong) as [err ->]. eauto.
  - destruct (StockData_field key' v' cur); eauto.
Qed.

Lemma into_elems_fails {T : Type} (elem : Json.value → error + T) (elems : list Json.value) (v : Json.value) :
  v ∈ elems → (∃ err, elem v = inl err) → ∃ err, Json.into_elems elem elems = inl err.
Proof.
  intros Hin [err Herr]. induction elems as [|v' elems IH]; [by apply elem_of_nil in Hin|].
  simpl. apply elem_of_cons in Hin as [<-|Hin].
  - rewrite Herr. eauto.
  - destruct (elem v'); [eauto|]. destruct (IH Hin) as [err' ->]. eauto.
Qed.

(** X15.  One value of the wrong JSON type under one of the six keys of one entry
    (a number for [latest_price], a string for [points_change], ...) fails
    the whole fetch: a decoding error and no entries, the well-formed ones
    included. *)
Theorem wrongly_typed_field_fails_the_fetch (env : Env) (s : StockService)
    (elems : list Json.value) (members : list (string * Json.value)) (key : string) (v : Json.value) :
  net_Get env (apiURL s) =
    inr (mkHttpResponse 200 (BodyJSON (Json.Object [("response"%string, Json.Array elems)]))) →
  Json.Object members ∈ elems → (key, v) ∈ members → wrongly_typed key v = true →
  ∃ err, (run (FetchStockData env s)).1 = ([], Some (Errorf_w "failed to decode JSON response: " err)).
Proof.
  intros Hget Helem Hmember Hwrong.
  rewrite FetchStockData_run, Hget. simpl StatusCode. simpl Body.
  unfold Decode, into_StockAPIResponse. cbn [Json.into_struct].
  unfold StockAPIResponse_field.
  change (Json.key_matches "response" "response") with true. cbn iota.
  unfold into_StockData_slice.
  destruct (into_elems_fails (into_StockData zeroStockData) elems (Json.Object members) Helem)
    as [err ->]; [|by eexists].
  by apply (into_struct_wrongly_typed members key v).
Qed.

#[warnings="-inexact-float"]
Lemma wrongly_typed_field_fails_the_fetch_witness :
  ∃ err,
    (run (FetchStockData
            (okEnv (Json.Object [("response"%string,
                      Json.Array [json_of_StockData sampleStock;
                                  Json.Object [("latest_price"%string, Json.Number 120.5%float)]])]))
            (NewStockService stockAPIURL))).1 =
      ([], Some (Errorf_w "failed to decode JSON response: " err)).
Proof.
  apply (wrongly_typed_field_fails_the_fetch
           (okEnv (Json.Object [("response"%string,
                      Json.Array [json_of_StockData sampleStock;
                                  Json.Object [("latest_price"%string, Json.Number 120.5%float)]])]))
           (NewStockService stockAPIURL)
           [json_of_StockData sampleStock; Json.Object [("latest_price"%string, Json.Number 120.5%float)]]
           [("latest_price"%string, Json.Number 120.5%float)] "latest_price" (Json.Number 120.5%float)).
  - reflexivity.
  - apply elem_of_cons. right. apply elem_of_cons. by left.
  - apply elem_of_cons. by left.
  - vm_compute. reflexivity.
Defined.

Lemma into_struct_skip {T : Type} (field : string → Json.value → T → error + T)
    (members : list (string * Json.value)) (cur : T) :
  (∀ key v, (key, v) ∈ members → field key v cur = inr cur) →
  Json.into_struct field members cur = inr cur.
Proof.
  induction members as [|[key v] members IH]; intros Hskip; [done|].
  simpl. rewrite Hskip by (apply elem_of_cons; by left).
  apply IH. intros key' v' Hin. apply Hskip, elem_of_cons. by right.
Qed.

Lemma into_struct_app {T : Type} (field : string → Json.value → T → error + T)
    (members1 members2 : list (string * Json.value)) (cur : T) :
  Json.into_struct field (members1 ++ members2) cur =
    match Json.into_struct field members1 cur with
    | inl err => inl err
    | inr cur' => Json.into_struct field members2 cur'
    end.
Proof.
  revert cur. induction members1 as [|[key v] members1 IH]; intros cur; [done|].
  simpl. by destruct (field key v cur).
Qed.

(** X16.  Members of the response object whose keys do not select the [response]
    field (whatever they hold) change nothing: the body decodes as the body
    with the [response] member alone. *)
Theorem other_keys_of_the_body_are_ignored (before after : list (string * Json.value)) (v : Json.value) :
  (∀ key v', (key, v') ∈ before ++ after → Json.key_matches "response" key = false) →
  Decode (BodyJSON (Json.Object (before ++ ("response"%string, v) :: after))) zeroStockAPIResponse =
  Decode (BodyJSON (Json.Object [("response"%string, v)])) zeroStockAPIResponse.
Proof.
  intros Hother. unfold Decode, into_StockAPIResponse.
  assert (∀ members r, (∀ key v', (key, v') ∈ members → Json.key_matches "response" key = false) →
            Json.into_struct StockAPIResponse_field members r = inr r) as Hskip.
  { intros members r Hno. apply into_struct_skip. intros key v' Hin.
    unfold StockAPIResponse_field. by rewrite (Hno key v' Hin). }
  rewrite into_struct_app, Hskip
    by (intros key v' Hin; apply (Hother key v'), elem_of_app; by left).
  cbn [Json.into_struct].
  destruct (StockAPIResponse_field "response" v zeroStockAPIResponse) as [err|r]; [done|].
  apply Hskip. intros key v' Hin. apply (Hother key v'), elem_of_app. by right.
Qed.

Lemma other_keys_of_the_body_are_ignored_witness :
  Decode (BodyJSON (Json.Object ([("status"%string, Json.Number 200%float)]
                                   ++ ("response"%string, Json.Array [json_of_StockData sampleStock])
                                   :: [("count"%string, Json.Str "1")]))) zeroStockAPIResponse =
  Decode (BodyJSON (Json.Object [("response"%string, Json.Array [json_of_StockData sampleStock])]))
    zeroStockAPIResponse.
Proof.
  apply (other_keys_of_the_body_are_ignored [("status"%string, Json.Number 200%float)]
           [("count"%string, Json.Str "1")] (Json.Array [json_of_StockData sampleStock])).
  intros key v' Hin. simpl in Hin.
  apply elem_of_cons in Hin as [Hin|Hin].
  - injection Hin as -> ->. vm_compute. reflexivity.
  - apply list_elem_of_singleton in Hin. injection Hin as -> ->. vm_compute. reflexivity.
Defined.

(** X17.  An entry that is [null], or an object none of whose keys selects one of
    the six fields, is not skipped and is no error: it becomes an entry of
    zero values (empty strings and 0), so the list keeps its length. *)
Theorem entries_without_fields_are_zero (elems : list Json.value) :
  (∀ el, el ∈ elems →
     el = Json.Null ∨
     ∃ members, el = Json.Object members ∧
                ∀ key v, (key, v) ∈ members → selects_StockData_field key = false) →
  Decode (BodyJSON (Json.Object [("response"%string, Json.Array elems)])) zeroStockAPIResponse =
    inr (mkStockAPIResponse (replicate (length elems) zeroStockData)).
Proof.
  intros Hzero. unfold Decode, into_StockAPIResponse. cbn [Json.into_struct].
  unfold StockAPIResponse_field.
  change (Json.key_matches "response" "response") with true. cbn iota.
  unfold into_StockData_slice.
  assert (Json.into_elems (into_StockData zeroStockData) elems =
            inr (replicate (length elems) zeroStockData)) as ->; [|done].
  induction elems as [|el elems IH]; [done|].
  cbn [Json.into_elems length replicate].
  rewrite IH by (intros el' Hin; apply Hzero, elem_of_cons; by right).
  destruct (Hzero el) as [->|(members & -> & Hnone)]; [apply elem_of_cons; by left|done|].
  unfold into_StockData. rewrite into_struct_skip; [done|].
  intros key v Hin. specialize (Hnone key v Hin).
  unfold selects_StockData_field in Hnone. unfold StockData_field.
  repeat (destruct (Json.key_matches _ key); [by simpl in Hnone|]).
  done.
Qed.

Lemma entries_without_fields_are_zero_witness :
  Decode (BodyJSON (Json.Object [("response"%string,
            Json.Array [Json.Null; Json.Object [("symbol"%string, Json.Str "ABC")]])]))
    zeroStockAPIResponse =
    inr (mkStockAPIResponse
           (replicate (length [Json.Null; Json.Object [("symbol"%string, Json.Str "ABC")]]) zeroStockData)).
Proof.
  apply (entries_without_fields_are_zero [Json.Null; Json.Object [("symbol"%string, Json.Str "ABC")]]).
  intros el Hin. apply elem_of_cons in Hin as [->|Hin]; [by left|].
  apply list_elem_of_singleton in Hin as ->. right.
  exists [("symbol"%string, Json.Str "ABC")]. split; [reflexivity|].
  intros key v Hin. apply list_elem_of_singleton in Hin. injection Hin as -> ->.
  vm_compute. reflexivity.
Defined.
